(** * The instrument layer of the metrics SDK

    A shallow embedding of
    [opentelemetry-sdk/src/opentelemetry/sdk/_metrics/_internal/instrument.py]:
    the two mixins [_Synchronous] and [_Asynchronous], the six instrument
    classes built from them, and the properties of construction, of
    synchronous recording and of the collection of asynchronous callbacks.

    Python objects live in a store indexed by their identity; methods are
    computations in a monad that threads the store, may raise, and (for
    generator functions) records what was yielded. *)

From Stdlib Require Import ZArith NArith List String Ascii Bool Lia SpecFloat.
From stdpp Require Import base tactics option list functions.

Set Default Proof Using "Type".
Local Open Scope N_scope.

(** ** Strings

    A Python [str] is a sequence of Unicode code points. *)

Definition str : Type := list N.

Definition code_points (s : string) : str :=
  map N_of_ascii (list_ascii_of_string s).

(** [template.format(args...)] for templates whose only replacement fields
    are the automatic field [{}]: each field takes the next argument. *)
Fixpoint format (template : str) (args : list str) : str :=
  match template with
  | 123 :: ((125 :: rest) as tail) =>
      match args with
      | a :: args' => a ++ format rest args'
      | [] => 123 :: format tail args
      end
  | c :: rest => c :: format rest args
  | [] => []
  end.

(** [template % args] for templates whose only conversions are [%s], applied
    to arguments that are already strings. *)
Fixpoint percent (template : str) (args : list str) : str :=
  match template with
  | 37 :: ((115 :: rest) as tail) =>
      match args with
      | a :: args' => a ++ percent rest args'
      | [] => 37 :: percent tail args
      end
  | c :: rest => c :: percent rest args
  | [] => []
  end.

(** [str.lower] on one code point.  On ASCII this is Python's mapping
    (A-Z to a-z, everything else fixed); instrument names are lowered only
    after [_check_name_and_unit] has accepted them. *)
Definition lower_code_point (c : N) : N :=
  if (65 <=? c) && (c <=? 90) then c + 32 else c.

Definition lower (s : str) : str := map lower_code_point s.

(** [needle in haystack] for strings. *)
Definition contains (haystack needle : str) : Prop :=
  exists before after, haystack = before ++ needle ++ after.

(** ** Numbers

    [Union[int, float]]: unbounded integers and IEEE 754 doubles. *)

Inductive number :=
  | int (z : Z)
  | float (f : spec_float).

(** [amount < 0] *)
Definition lt_zero (amount : number) : bool :=
  match amount with
  | int z => (z <? 0)%Z
  | float f => SFltb f (S754_zero false)
  end.

(** [Dict[str, str]] or [None]; attributes are carried, never inspected. *)
Definition Attributes : Type := option (list (str * str)).

(** ** Exceptions

    What the two [except] clauses of [_Asynchronous.callback] tell apart:
    [StopIteration], the other instances of [Exception], and the raised
    objects that derive from [BaseException] only ([KeyboardInterrupt],
    [SystemExit], [GeneratorExit]). *)

Inductive exn :=
  | StopIteration
  | Exception (cls : string) (message : str)
  | BaseException (cls : string).

Definition isinstance_StopIteration (e : exn) : bool :=
  match e with StopIteration => true | _ => false end.

Definition isinstance_Exception (e : exn) : bool :=
  match e with BaseException _ => false | _ => true end.

Inductive outcome (A : Type) :=
  | Return (a : A)
  | Raise (e : exn).
Arguments Return {A} a.
Arguments Raise {A} e.

Definition _ERROR_MESSAGE : str :=
  code_points "Expected ASCII string of maximum length 63 characters but got {}".

(** ** Objects

    Every Python object the module handles is named by its identity. *)

Abbreviation ref := nat (only parsing).

(** The six concrete instrument classes. *)
Inductive class :=
  | Counter
  | UpDownCounter
  | Histogram
  | ObservableCounter
  | ObservableUpDownCounter
  | ObservableGauge.

(** A raw callback as the caller registers it ([CallbackT]): a generator
    object, for which [isinstance(callback, Generator)] holds, or a plain
    zero-argument callable. *)
Inductive CallbackT :=
  | generator_object (g : ref)
  | callable_object (f : ref).

(** An entry of [self._callbacks]: the closure [inner], whose default
    argument [callback=callback] holds the generator it was defined for, or
    the registered callable itself. *)
Inductive canonical :=
  | inner (callback : ref)
  | as_is (f : ref).

(** An instrument object: its class and the attributes assigned so far
    ([None] while an attribute has not been assigned). *)
Module Instrument.
Record t := mk {
  class_ : class;
  name : option str;
  unit : option str;
  description : option str;
  instrumentation_scope : option ref;
  _measurement_consumer : option ref;
  _callbacks : option (list canonical)
}.

(** What [__new__] returns. *)
Definition blank (cls : class) : t :=
  mk cls None None None None None None.

Definition set_name (v : str) (o : t) : t :=
  mk (class_ o) (Some v) (unit o) (description o)
     (instrumentation_scope o) (_measurement_consumer o) (_callbacks o).
Definition set_unit (v : str) (o : t) : t :=
  mk (class_ o) (name o) (Some v) (description o)
     (instrumentation_scope o) (_measurement_consumer o) (_callbacks o).
Definition set_description (v : str) (o : t) : t :=
  mk (class_ o) (name o) (unit o) (Some v)
     (instrumentation_scope o) (_measurement_consumer o) (_callbacks o).
Definition set_instrumentation_scope (v : ref) (o : t) : t :=
  mk (class_ o) (name o) (unit o) (description o)
     (Some v) (_measurement_consumer o) (_callbacks o).
Definition set__measurement_consumer (v : ref) (o : t) : t :=
  mk (class_ o) (name o) (unit o) (description o)
     (instrumentation_scope o) (Some v) (_callbacks o).
Definition set__callbacks (v : list canonical) (o : t) : t :=
  mk (class_ o) (name o) (unit o) (description o)
     (instrumentation_scope o) (_measurement_consumer o) (Some v).
End Instrument.

(** The API measurement a callback produces: a value and its attributes. *)
Module APIMeasurement.
Record t := mk { value : number; attributes : Attributes }.
End APIMeasurement.

(** The SDK [Measurement(value, instrument, attributes)]; [instrument] is a
    reference to the instrument object. *)
Module Measurement.
Record t := mk { value : number; instrument : ref; attributes : Attributes }.
End Measurement.

(** What iterating the value returned by a callback does: it produces
    items one at a time until the iterator stops or raises. *)
Inductive iterable :=
  | stop
  | item (m : APIMeasurement.t) (rest : iterable)
  | fail (e : exn).

Fixpoint iter (l : list APIMeasurement.t) : iterable :=
  match l with
  | [] => stop
  | m :: l' => item m (iter l')
  end.

(** The items an iterable produces before it stops or raises. *)
Fixpoint items (it : iterable) : list APIMeasurement.t :=
  match it with
  | item m rest => m :: items rest
  | _ => []
  end.

(** A generator object: what its body does at each resumption, how often it
    has been resumed, and whether it has finished. *)
Inductive resumption :=
  | yields (v : iterable)
  | returns
  | raises (e : exn).

Record generator := {
  body : nat -> resumption;
  resumed : nat;
  finished : bool
}.

(** [next(g)] on the generator's own state.  A finished generator raises
    [StopIteration]; a body that returns or raises finishes the generator;
    a [StopIteration] escaping the body is turned into a [RuntimeError]. *)
Definition next_ (g : generator) : outcome iterable * generator :=
  if finished g then (Raise StopIteration, g)
  else
    match body g (resumed g) with
    | yields v => (Return v, {| body := body g; resumed := S (resumed g); finished := false |})
    | returns => (Raise StopIteration, {| body := body g; resumed := resumed g; finished := true |})
    | raises e =>
        (Raise (if isinstance_StopIteration e
                then Exception "RuntimeError" (code_points "generator raised StopIteration")
                else e),
         {| body := body g; resumed := resumed g; finished := true |})
    end.

(** A plain callable: what its n-th call does, and how often it has been
    called. *)
Record callable := {
  behaviour : nat -> outcome iterable;
  calls : nat
}.

Definition call_ (f : callable) : outcome iterable * callable :=
  (behaviour f (calls f), {| behaviour := behaviour f; calls := S (calls f) |}).

(** A record handed to the module's logger. *)
Inductive level := WARNING | ERROR.

Record LogRecord := {
  levelname : level;
  msg : str;
  args : list str;
  exc_info : option exn
}.

Definition getMessage (r : LogRecord) : str := percent (msg r) (args r).

(** The store: the user's generators and callables, the instruments, the
    records received by [_logger], the measurements received by each
    consumer's [consume_measurement] (in order of arrival), and the trace of
    the canonical callbacks invoked so far. *)
Record world := {
  generators : ref -> generator;
  callables : ref -> callable;
  instruments : ref -> Instrument.t;
  allocated : ref;
  _logger : list LogRecord;
  consumed : list (ref * Measurement.t);
  invoked : list canonical
}.

Definition with_generators (v : ref -> generator) (w : world) : world :=
  {| generators := v; callables := callables w; instruments := instruments w;
     allocated := allocated w; _logger := _logger w; consumed := consumed w;
     invoked := invoked w |}.
Definition with_callables (v : ref -> callable) (w : world) : world :=
  {| generators := generators w; callables := v; instruments := instruments w;
     allocated := allocated w; _logger := _logger w; consumed := consumed w;
     invoked := invoked w |}.
Definition with_instruments (v : ref -> Instrument.t) (w : world) : world :=
  {| generators := generators w; callables := callables w; instruments := v;
     allocated := allocated w; _logger := _logger w; consumed := consumed w;
     invoked := invoked w |}.
Definition with_allocated (v : ref) (w : world) : world :=
  {| generators := generators w; callables := callables w; instruments := instruments w;
     allocated := v; _logger := _logger w; consumed := consumed w;
     invoked := invoked w |}.
Definition with__logger (v : list LogRecord) (w : world) : world :=
  {| generators := generators w; callables := callables w; instruments := instruments w;
     allocated := allocated w; _logger := v; consumed := consumed w;
     invoked := invoked w |}.
Definition with_consumed (v : list (ref * Measurement.t)) (w : world) : world :=
  {| generators := generators w; callables := callables w; instruments := instruments w;
     allocated := allocated w; _logger := _logger w; consumed := v;
     invoked := invoked w |}.
Definition with_invoked (v : list canonical) (w : world) : world :=
  {| generators := generators w; callables := callables w; instruments := instruments w;
     allocated := allocated w; _logger := _logger w; consumed := consumed w;
     invoked := v |}.

(** ** Computations

    A method body run from a store: what it yielded (nothing, unless it is
    the body of a generator function), how it ended, and the store it left. *)

Record run (A : Type) := Run {
  yielded : list Measurement.t;
  result : outcome A;
  after : world
}.
Arguments Run {A} yielded result after.
Arguments yielded {A} r.
Arguments result {A} r.
Arguments after {A} r.

Definition M (A : Type) : Type := world -> run A.

(** The type of a Python function that returns [None]. *)
Definition NoneType : Type := Datatypes.unit.

#[global] Instance M_ret : MRet M := fun A a w => Run [] (Return a) w.

#[global] Instance M_bind : MBind M := fun A B f m w =>
  let r := m w in
  match result r with
  | Return a =>
      let r' := f a (after r) in
      Run (yielded r ++ yielded r') (result r') (after r')
  | Raise e => Run (yielded r) (Raise e) (after r)
  end.

(** [raise e] *)
Definition raise {A} (e : exn) : M A := fun w => Run [] (Raise e) w.

(** [yield m] *)
Definition yield (m : Measurement.t) : M NoneType := fun w => Run [m] (Return tt) w.

(** [pass] *)
Definition pass : M NoneType := mret tt.

(** [try: body / except ...: handler].  [handler e] is [None] when no
    [except] clause matches [e], which then propagates. *)
Definition try_except (body : M NoneType) (handler : exn -> option (M NoneType)) : M NoneType :=
  fun w =>
    let r := body w in
    match result r with
    | Return a => r
    | Raise e =>
        match handler e with
        | Some h =>
            let r' := h (after r) in
            Run (yielded r ++ yielded r') (result r') (after r')
        | None => r
        end
    end.

(** [for x in l: body] over a list. *)
Fixpoint for_in {A} (l : list A) (body : A -> M NoneType) : M NoneType :=
  match l with
  | [] => mret tt
  | x :: l' => body x ;; for_in l' body
  end.

(** [for x in it: body] over the value a callback returned: the loop ends
    when the iterator stops, and what the iterator raises leaves the loop. *)
Fixpoint for_each (it : iterable) (body : APIMeasurement.t -> M NoneType) : M NoneType :=
  match it with
  | stop => mret tt
  | item x rest => body x ;; for_each rest body
  | fail e => if isinstance_StopIteration e then mret tt else raise e
  end.

(** [self.attr] *)
Definition getattr {A} (self : ref) (attr : Instrument.t -> option A) (attr_name : string) : M A :=
  fun w =>
    match attr (instruments w self) with
    | Some v => Run [] (Return v) w
    | None => Run [] (Raise (Exception "AttributeError" (code_points attr_name))) w
    end.

(** [self.attr = v] *)
Definition setattr (self : ref) (set : Instrument.t -> Instrument.t) : M NoneType :=
  fun w =>
    Run [] (Return tt)
        (with_instruments (<[self := set (instruments w self)]> (instruments w)) w).

(** [cls.__new__(cls)]: a fresh object with no attribute assigned. *)
Definition __new__ (cls : class) : M ref :=
  fun w =>
    Run [] (Return (allocated w))
        (with_allocated (S (allocated w))
           (with_instruments (<[allocated w := Instrument.blank cls]> (instruments w)) w)).

(** [_logger.warning(msg, *args)] *)
Definition _logger_warning (msg : str) (args : list str) : M NoneType :=
  fun w =>
    Run [] (Return tt)
        (with__logger (_logger w ++ [{| levelname := WARNING; msg := msg; args := args; exc_info := None |}]) w).

(** [_logger.exception(msg, *args)] inside the handler of [e] *)
Definition _logger_exception (e : exn) (msg : str) (args : list str) : M NoneType :=
  fun w =>
    Run [] (Return tt)
        (with__logger (_logger w ++ [{| levelname := ERROR; msg := msg; args := args; exc_info := Some e |}]) w).

(** [consumer.consume_measurement(m)] *)
Definition consume_measurement (consumer : ref) (m : Measurement.t) : M NoneType :=
  fun w => Run [] (Return tt) (with_consumed (consumed w ++ [(consumer, m)]) w).

(** [callback()] for an entry of [self._callbacks]: [inner] returns
    [next(callback)] of the generator it holds; a registered callable is
    called. *)
Definition invoke (c : canonical) : M iterable :=
  fun w =>
    let w := with_invoked (invoked w ++ [c]) w in
    match c with
    | inner callback =>
        let '(o, g') := next_ (generators w callback) in
        Run [] o (with_generators (<[callback := g']> (generators w)) w)
    | as_is f =>
        let '(o, f') := call_ (callables w f) in
        Run [] o (with_callables (<[f := f']> (callables w)) w)
    end.

(** ** The API base class

    [opentelemetry._metrics] is imported, not defined, by the module. *)

Definition is_ascii (c : N) : bool := c <? 128.

Definition is_letter (c : N) : bool :=
  ((65 <=? c) && (c <=? 90)) || ((97 <=? c) && (c <=? 122)).

Definition is_digit (c : N) : bool := (48 <=? c) && (c <=? 57).

(** One of [A-Za-z0-9_.\-/]. *)
Definition is_name_character (c : N) : bool :=
  is_letter c || is_digit c || (c =? 95) || (c =? 46) || (c =? 45) || (c =? 47).

(** The whole string matches [[A-Za-z][A-Za-z0-9_.\-/]*]. *)
Definition matches_name_pattern (s : str) : bool :=
  match s with
  | [] => false
  | c :: rest => is_letter c && forallb is_name_character rest
  end.

(** Modelled from the spec: [Instrument._check_name_and_unit], the static
    method of the API base class that both [__init__] call, is not part of
    the module.  Section 3 of the specification: the name is a non-empty
    ASCII string of at most 63 characters matching
    [[A-Za-z][A-Za-z0-9_.\-/]*]; the unit is an ASCII string of at most 63
    characters and may be empty.  Section 4.1: the result is the pair
    [(nameValid, unitValid)]. *)
Definition _check_name_and_unit (name unit : str) : bool * bool :=
  (matches_name_pattern name && forallb is_ascii name && (length name <=? 63)%nat,
   forallb is_ascii unit && (length unit <=? 63)%nat).

(** Modelled from the spec: the [__init__] of the API base classes, reached
    through [super().__init__(...)], is not part of the module.  Section 4.1
    of the specification: construction has no side effects beyond validation
    and field assignment. *)
Definition super___init__ : M NoneType := pass.

(** ** [class _Synchronous] *)

Module _Synchronous.

Definition __init__ (self : ref) (name : str)
    (instrumentation_scope measurement_consumer : ref)
    (unit description : str) : M NoneType :=
  let '(is_name_valid, is_unit_valid) := _check_name_and_unit name unit in
  if negb is_name_valid then
    raise (Exception "Exception" (format _ERROR_MESSAGE [name]))
  else if negb is_unit_valid then
    raise (Exception "Exception" (format _ERROR_MESSAGE [unit]))
  else
    setattr self (Instrument.set_name (lower name)) ;;
    setattr self (Instrument.set_unit unit) ;;
    setattr self (Instrument.set_description description) ;;
    setattr self (Instrument.set_instrumentation_scope instrumentation_scope) ;;
    setattr self (Instrument.set__measurement_consumer measurement_consumer) ;;
    super___init__.

End _Synchronous.

(** ** [class _Asynchronous] *)

Module _Asynchronous.

(** [self._callbacks.append(c)] *)
Definition _callbacks_append (self : ref) (c : canonical) : M NoneType :=
  l ← getattr self Instrument._callbacks "_callbacks" ;
  setattr self (Instrument.set__callbacks (l ++ [c])).

Definition __init__ (self : ref) (name : str)
    (instrumentation_scope measurement_consumer : ref)
    (callbacks : option (list CallbackT))
    (unit description : str) : M NoneType :=
  let '(is_name_valid, is_unit_valid) := _check_name_and_unit name unit in
  if negb is_name_valid then
    raise (Exception "Exception" (format _ERROR_MESSAGE [name]))
  else if negb is_unit_valid then
    raise (Exception "Exception" (format _ERROR_MESSAGE [unit]))
  else
    setattr self (Instrument.set_name (lower name)) ;;
    setattr self (Instrument.set_unit unit) ;;
    setattr self (Instrument.set_description description) ;;
    setattr self (Instrument.set_instrumentation_scope instrumentation_scope) ;;
    setattr self (Instrument.set__measurement_consumer measurement_consumer) ;;
    super___init__ ;;
    setattr self (Instrument.set__callbacks []) ;;
    match callbacks with
    | Some callbacks =>
        for_in callbacks (fun callback =>
          match callback with
          | generator_object g => _callbacks_append self (inner g)
          | callable_object f => _callbacks_append self (as_is f)
          end)
    | None => pass
    end.

(** The handlers of the [try] statement in [callback], in their order. *)
Definition handlers (self : ref) (e : exn) : option (M NoneType) :=
  if isinstance_StopIteration e then Some pass
  else if isinstance_Exception e then
    Some (name ← getattr self Instrument.name "name" ;
          _logger_exception e (code_points "Callback failed for instrument %s.") [name])
  else None.

(** The body of the [for callback in self._callbacks] loop. *)
Definition attempt (self : ref) (callback : canonical) : M NoneType :=
  try_except
    (produced ← invoke callback ;
     for_each produced (fun api_measurement =>
       yield (Measurement.mk (APIMeasurement.value api_measurement)
                             self
                             (APIMeasurement.attributes api_measurement))))
    (handlers self).

(** The generator function [callback], consumed to its end. *)
Definition callback (self : ref) : M NoneType :=
  _callbacks ← getattr self Instrument._callbacks "_callbacks" ;
  for_in _callbacks (attempt self).

End _Asynchronous.

(** ** The synchronous instruments *)

Module Counter.

Definition add (self : ref) (amount : number) (attributes : Attributes) : M NoneType :=
  if lt_zero amount then
    name ← getattr self Instrument.name "name" ;
    _logger_warning (code_points "Add amount must be non-negative on Counter %s.") [name]
  else
    consumer ← getattr self Instrument._measurement_consumer "_measurement_consumer" ;
    consume_measurement consumer (Measurement.mk amount self attributes).

End Counter.

Module UpDownCounter.

Definition add (self : ref) (amount : number) (attributes : Attributes) : M NoneType :=
  consumer ← getattr self Instrument._measurement_consumer "_measurement_consumer" ;
  consume_measurement consumer (Measurement.mk amount self attributes).

End UpDownCounter.

Module Histogram.

Definition record (self : ref) (amount : number) (attributes : Attributes) : M NoneType :=
  if lt_zero amount then
    name ← getattr self Instrument.name "name" ;
    _logger_warning (code_points "Record amount must be non-negative on Histogram %s.") [name]
  else
    consumer ← getattr self Instrument._measurement_consumer "_measurement_consumer" ;
    consume_measurement consumer (Measurement.mk amount self attributes).

End Histogram.

(** ** Instantiation

    [cls(name, instrumentation_scope, measurement_consumer, ...)]: a new
    object is made and the [__init__] the class inherits runs on it; the
    object is returned unless [__init__] raises.  Only the three observable
    classes take [callbacks]. *)
Definition instantiate (cls : class) (name : str)
    (instrumentation_scope measurement_consumer : ref)
    (callbacks : option (list CallbackT))
    (unit description : str) : M ref :=
  self ← __new__ cls ;
  match cls with
  | Counter | UpDownCounter | Histogram =>
      _Synchronous.__init__ self name instrumentation_scope measurement_consumer
        unit description
  | ObservableCounter | ObservableUpDownCounter | ObservableGauge =>
      _Asynchronous.__init__ self name instrumentation_scope measurement_consumer
        callbacks unit description
  end ;;
  mret self.

(** ** Vocabulary of the statements *)

(** A negative amount: a negative integer, or a float below zero (negative
    zero and NaN are not). *)
Definition negative (amount : number) : Prop :=
  match amount with
  | int z => (z < 0)%Z
  | float (S754_infinity true) | float (S754_finite true _ _) => True
  | float _ => False
  end.

(** An amount that is at least zero: a natural number, or a float that is a
    zero, positive or positive infinity. *)
Definition non_negative (amount : number) : Prop :=
  match amount with
  | int z => (0 <= z)%Z
  | float (S754_zero _) | float (S754_infinity false) | float (S754_finite false _ _) => True
  | float _ => False
  end.

(** The ways a name can be invalid. *)
Definition invalid_name (name : str) : Prop :=
  name = [] \/ (63 < length name)%nat \/ Exists (fun c => 128 <= c) name \/
  matches_name_pattern name = false.

(** The ways a unit can be invalid. *)
Definition invalid_unit (unit : str) : Prop :=
  (63 < length unit)%nat \/ Exists (fun c => 128 <= c) unit.

Definition valid_name (name : str) : Prop :=
  name <> [] /\ (length name <= 63)%nat /\ Forall (fun c => c < 128) name /\
  matches_name_pattern name = true.

Definition valid_unit (unit : str) : Prop :=
  (length unit <= 63)%nat /\ Forall (fun c => c < 128) unit.

Definition is_observable (cls : class) : bool :=
  match cls with
  | ObservableCounter | ObservableUpDownCounter | ObservableGauge => true
  | _ => false
  end.

(** The canonical callable registered for a raw callback. *)
Definition canonical_of (callback : CallbackT) : canonical :=
  match callback with
  | generator_object g => inner g
  | callable_object f => as_is f
  end.

(** The measurement made from an item a callback produced. *)
Definition measurement_of (self : ref) (m : APIMeasurement.t) : Measurement.t :=
  Measurement.mk (APIMeasurement.value m) self (APIMeasurement.attributes m).

(** What an iterable ends with: nothing when it stops, or what it raises. *)
Fixpoint ending (it : iterable) : option exn :=
  match it with
  | stop => None
  | item _ rest => ending rest
  | fail e => Some e
  end.

(** The items one invocation of a callback produced, and the exception
    that ended it, if any: raised by the invocation itself, or while
    iterating over what it returned. *)
Definition produced (o : outcome iterable) : list APIMeasurement.t :=
  match o with
  | Return it => items it
  | Raise _ => []
  end.

Definition raised (o : outcome iterable) : option exn :=
  match o with
  | Return it => ending it
  | Raise e => Some e
  end.

(** The loop of [callback] over a list of canonical callbacks. *)
Definition cycle (self : ref) (callbacks : list canonical) : M NoneType :=
  for_in callbacks (_Asynchronous.attempt self).

(** [n] successive collection cycles: what each yielded, and the store
    left by the last. *)
Fixpoint cycles (self : ref) (n : nat) (w : world) : list (list Measurement.t) * world :=
  match n with
  | O => ([], w)
  | S n' =>
      let r := _Asynchronous.callback self w in
      let '(later, w') := cycles self n' (after r) in
      (yielded r :: later, w')
  end.

(** ** Sample stores *)

(** A store with no instrument, whose generators have all returned at once
    and whose callables all return an empty collection. *)
Definition empty_world : world :=
  {| generators := fun _ => {| body := fun _ => returns; resumed := 0; finished := false |};
     callables := fun _ => {| behaviour := fun _ => Return stop; calls := 0 |};
     instruments := fun _ => Instrument.blank Counter;
     allocated := 0%nat;
     _logger := [];
     consumed := [];
     invoked := [] |}.

(** The store after [Counter("Requests", scope, consumer, unit="1")]. *)
Definition counter_world : world :=
  after (instantiate Counter (code_points "Requests") 3%nat 4%nat None
           (code_points "1") [] empty_world).

Definition reading (n : Z) : APIMeasurement.t := APIMeasurement.mk (int n) None.

(** A generator that yields [a], then [b], then returns. *)
Definition step_producer (a b : iterable) : generator :=
  {| body := fun n => match n with
                      | 0%nat => yields a
                      | 1%nat => yields b
                      | _ => returns
                      end;
     resumed := 0;
     finished := false |}.

(** Two step producers, at 7 and 8. *)
Definition producers_world : world :=
  with_generators
    (<[7%nat := step_producer (iter [reading 1]) (iter [reading 2; reading 3])]>
       (<[8%nat := step_producer (iter [reading 10]) (iter [reading 20])]>
          (generators empty_world)))
    empty_world.

(** The store after
    [ObservableCounter("Cpu.Time", scope, consumer, callbacks=[g7, g8], unit="s")]. *)
Definition observer_world : world :=
  after (instantiate ObservableCounter (code_points "Cpu.Time") 3%nat 4%nat
           (Some [generator_object 7; generator_object 8])
           (code_points "s") [] producers_world).

(** The record [_logger.exception] receives when a callback of the
    instrument called [name] has failed with [e]. *)
Definition callback_failed (e : exn) (name : str) : LogRecord :=
  {| levelname := ERROR;
     msg := code_points "Callback failed for instrument %s.";
     args := [name];
     exc_info := Some e |}.

(** How one pass of the loop body comes out of what the callback did:
    what the pass logs, and how it ends. *)
Definition logged (o : outcome iterable) (name : str) : list LogRecord :=
  match raised o with
  | Some e =>
      if isinstance_StopIteration e then []
      else if isinstance_Exception e then [callback_failed e name]
      else []
  | None => []
  end.

Definition propagated (o : outcome iterable) : outcome NoneType :=
  match raised o with
  | Some e =>
      if isinstance_StopIteration e then Return tt
      else if isinstance_Exception e then Return tt
      else Raise e
  | None => Return tt
  end.

(** The batches one cycle collects, one per registered callback and in
    registration order: the measurements made from the items the callback
    produced at its turn, and nothing for the callbacks after one whose
    raise left the loop. *)
Fixpoint batches (self : ref) (name : str) (callbacks : list canonical) (w : world)
    : list (list Measurement.t) :=
  match callbacks with
  | [] => []
  | c :: rest =>
      let r0 := invoke c w in
      map (measurement_of self) (produced (result r0))
      :: match propagated (result r0) with
         | Return _ =>
             batches self name rest
               (with__logger (_logger (after r0) ++ logged (result r0) name) (after r0))
         | Raise _ => map (fun _ => []) rest
         end
  end.

(** A callable that raises [KeyboardInterrupt] (1), one that returns one
    reading (2), and one whose returned iterator produces one reading and
    then raises [ValueError] (3). *)
Definition callables_world : world :=
  with_callables
    (<[1%nat := {| behaviour := fun _ => Raise (BaseException "KeyboardInterrupt");
                   calls := 0 |}]>
       (<[2%nat := {| behaviour := fun _ => Return (iter [reading 5]); calls := 0 |}]>
          (<[3%nat := {| behaviour := fun _ =>
                           Return (item (reading 1)
                                     (fail (Exception "ValueError" (code_points "bad"))));
                         calls := 0 |}]>
             (<[4%nat := {| behaviour := fun _ => Raise StopIteration; calls := 0 |}]>
                (callables empty_world)))))
    empty_world.

(** [ObservableGauge("load", scope, consumer, callbacks=[f1, f2])] *)
Definition interrupted_world : world :=
  after (instantiate ObservableGauge (code_points "load") 3%nat 4%nat
           (Some [callable_object 1; callable_object 2]) [] [] callables_world).

(** [ObservableGauge("load", scope, consumer, callbacks=[f3, f1])] *)
Definition failing_world : world :=
  after (instantiate ObservableGauge (code_points "load") 3%nat 4%nat
           (Some [callable_object 3; callable_object 1]) [] [] callables_world).

(** [ObservableGauge("load", scope, consumer, callbacks=[f3, f2])] *)
Definition recovering_world : world :=
  after (instantiate ObservableGauge (code_points "load") 3%nat 4%nat
           (Some [callable_object 3; callable_object 2]) [] [] callables_world).

(** [ObservableGauge("load", scope, consumer, callbacks=[f4, f2])] *)
Definition stopping_world : world :=
  after (instantiate ObservableGauge (code_points "load") 3%nat 4%nat
           (Some [callable_object 4; callable_object 2]) [] [] callables_world).

(** [ObservableCounter("steps", scope, consumer, callbacks=[g7])] *)
Definition stepping_world : world :=
  after (instantiate ObservableCounter (code_points "steps") 3%nat 4%nat
           (Some [generator_object 7]) [] [] producers_world).

(** A generator (9) whose body raises [ValueError] when it is first resumed. *)
Definition faulty_world : world :=
  with_generators
    (<[9%nat := {| body := fun _ => raises (Exception "ValueError" (code_points "bad"));
                   resumed := 0;
                   finished := false |}]>
       (generators empty_world))
    empty_world.

(** [ObservableGauge("load", scope, consumer, callbacks=[g9])] *)
Definition faulting_world : world :=
  after (instantiate ObservableGauge (code_points "load") 3%nat 4%nat
           (Some [generator_object 9]) [] [] faulty_world).

(** [ObservableCounter("steps", scope, consumer, callbacks=[g7, g7])]: the
    same generator object registered twice. *)
Definition twice_world : world :=
  after (instantiate ObservableCounter (code_points "steps") 3%nat 4%nat
           (Some [generator_object 7; generator_object 7]) [] [] producers_world).

(** [ObservableGauge("load", scope, consumer)]: no callbacks given. *)
Definition idle_world : world :=
  after (instantiate ObservableGauge (code_points "load") 3%nat 4%nat None [] [] empty_world).

(** [ObservableGauge("load", scope, consumer, callbacks=[f2])] *)
Definition polling_world : world :=
  after (instantiate ObservableGauge (code_points "load") 3%nat 4%nat
           (Some [callable_object 2]) [] [] callables_world).

(** * Properties *)

(** ** Computations *)

Lemma bind_return {A B} (m : M A) (f : A -> M B) (w : world) (a : A) :
  result (m w) = Return a ->
  (m ≫= f) w =
  Run (yielded (m w) ++ yielded (f a (after (m w))))
      (result (f a (after (m w)))) (after (f a (after (m w)))).
Proof. intros H. unfold mbind, M_bind. rewrite H. reflexivity. Qed.

Lemma bind_raise {A B} (m : M A) (f : A -> M B) (w : world) (e : exn) :
  result (m w) = Raise e ->
  (m ≫= f) w = Run (yielded (m w)) (Raise e) (after (m w)).
Proof. intros H. unfold mbind, M_bind. rewrite H. reflexivity. Qed.

Lemma run_eta {A} (r : run A) : Run (yielded r) (result r) (after r) = r.
Proof. destruct r; reflexivity. Qed.

Lemma world_eta (w : world) :
  with_instruments (instruments w) w = w.
Proof. destruct w; reflexivity. Qed.

Lemma frame_trans (w0 w1 w2 : world) :
  w1 = with_instruments (instruments w1) w0 ->
  w2 = with_instruments (instruments w2) w1 ->
  w2 = with_instruments (instruments w2) w0.
Proof. intros H1 H2. rewrite H2 at 1. rewrite H1. reflexivity. Qed.

Lemma pass_bind {B} (f : NoneType -> M B) (w : world) : (pass ≫= f) w = f tt w.
Proof. unfold mbind, M_bind, pass, mret, M_ret. cbn [result after yielded app]. apply run_eta. Qed.

Lemma setattr_bind {B} (self : ref) (set : Instrument.t -> Instrument.t)
    (f : NoneType -> M B) (w : world) :
  (setattr self set ≫= f) w = f tt (after (setattr self set w)).
Proof. unfold mbind, M_bind. cbn [setattr result after yielded app]. apply run_eta. Qed.

Lemma setattr_self (self : ref) (set : Instrument.t -> Instrument.t) (w : world) :
  instruments (after (setattr self set w)) self = set (instruments w self).
Proof. cbn [setattr after instruments with_instruments]. apply fn_lookup_insert. Qed.

Lemma setattr_other (self : ref) (set : Instrument.t -> Instrument.t) (w : world) (o : ref) :
  o <> self -> instruments (after (setattr self set w)) o = instruments w o.
Proof.
  intros Ho. cbn [setattr after instruments with_instruments].
  apply fn_lookup_insert_ne. congruence.
Qed.

Lemma setattr_frame (self : ref) (set : Instrument.t -> Instrument.t) (w : world) :
  after (setattr self set w) =
  with_instruments (instruments (after (setattr self set w))) w.
Proof. reflexivity. Qed.

Lemma new_bind {B} (cls : class) (f : ref -> M B) (w : world) :
  (__new__ cls ≫= f) w = f (allocated w) (after (__new__ cls w)).
Proof. unfold mbind, M_bind. cbn [__new__ result after yielded app]. apply run_eta. Qed.

(** ** Numbers *)

Lemma negative_lt_zero amount : negative amount <-> lt_zero amount = true.
Proof.
  destruct amount as [z | f]; simpl.
  - symmetry. apply Z.ltb_lt.
  - destruct f as [s | s | | s m e]; try destruct s; cbv; intuition congruence.
Qed.

Lemma non_negative_lt_zero amount : non_negative amount -> lt_zero amount = false.
Proof.
  destruct amount as [z | f]; simpl.
  - intros Hz. apply Z.ltb_ge. exact Hz.
  - destruct f as [s | s | | s m e]; try destruct s; cbv; intuition congruence.
Qed.

(** ** Messages *)

Lemma contains_middle (before s after : str) : contains (before ++ s ++ after) s.
Proof. exists before, after. reflexivity. Qed.

Lemma contains_end (before s : str) : contains (before ++ s) s.
Proof. exists before, []. now rewrite app_nil_r. Qed.

Lemma format_error_message (s : str) :
  format _ERROR_MESSAGE [s] =
  code_points "Expected ASCII string of maximum length 63 characters but got " ++ s.
Proof. lazy -[app]. rewrite app_nil_r. reflexivity. Qed.

Lemma counter_warning_message (name : str) :
  percent (code_points "Add amount must be non-negative on Counter %s.") [name] =
  code_points "Add amount must be non-negative on Counter " ++ name ++ code_points ".".
Proof. lazy -[app]. reflexivity. Qed.

Lemma histogram_warning_message (name : str) :
  percent (code_points "Record amount must be non-negative on Histogram %s.") [name] =
  code_points "Record amount must be non-negative on Histogram " ++ name ++ code_points ".".
Proof. lazy -[app]. reflexivity. Qed.

Lemma callback_failed_message (name : str) :
  percent (code_points "Callback failed for instrument %s.") [name] =
  code_points "Callback failed for instrument " ++ name ++ code_points ".".
Proof. lazy -[app]. reflexivity. Qed.

(** ** Synchronous recording *)

(** C2. For every negative amount, [Counter.add] and [Histogram.record]
    return normally, hand no measurement to the consumer, and emit exactly
    one warning, whose message names the instrument. *)
Theorem negative_amount_is_warned_and_dropped
    (w : world) (self : ref) (name : str) (amount : number) (attributes : Attributes) :
  Instrument.name (instruments w self) = Some name ->
  negative amount ->
  (let r := Counter.add self amount attributes w in
   result r = Return tt /\
   consumed (after r) = consumed w /\
   exists record,
     _logger (after r) = _logger w ++ [record] /\
     levelname record = WARNING /\
     getMessage record =
       code_points "Add amount must be non-negative on Counter " ++ name ++ code_points "." /\
     contains (getMessage record) name) /\
  (let r := Histogram.record self amount attributes w in
   result r = Return tt /\
   consumed (after r) = consumed w /\
   exists record,
     _logger (after r) = _logger w ++ [record] /\
     levelname record = WARNING /\
     getMessage record =
       code_points "Record amount must be non-negative on Histogram " ++ name ++ code_points "." /\
     contains (getMessage record) name).
Proof.
  intros Hname Hneg. apply negative_lt_zero in Hneg.
  unfold Counter.add, Histogram.record. rewrite Hneg.
  unfold mbind, M_bind, getattr. rewrite Hname. cbn [result after yielded _logger_warning].
  split; (split; [reflexivity | split; [reflexivity |]]).
  - eexists. split; [reflexivity |]. split; [reflexivity |].
    unfold getMessage. cbn [msg args]. rewrite counter_warning_message.
    split; [reflexivity | apply contains_middle].
  - eexists. split; [reflexivity |]. split; [reflexivity |].
    unfold getMessage. cbn [msg args]. rewrite histogram_warning_message.
    split; [reflexivity | apply contains_middle].
Qed.

Lemma negative_amount_is_warned_and_dropped_witness :
  Instrument.name (instruments counter_world 0%nat) = Some (code_points "requests") /\
  negative (int (-3)) /\
  consumed (after (Counter.add 0%nat (int (-3)) None counter_world)) = [] /\
  length (_logger (after (Counter.add 0%nat (int (-3)) None counter_world))) = 1%nat.
Proof.
  pose proof (negative_amount_is_warned_and_dropped counter_world 0%nat
                (code_points "requests") (int (-3)) None eq_refl eq_refl) as [HC _].
  cbv zeta in HC. destruct HC as (_ & Hconsumed & record & Hlog & _).
  split; [reflexivity |]. split; [reflexivity |].
  split; [exact Hconsumed |]. rewrite Hlog. reflexivity.
Defined.

(** C3. A valid recording call ([Counter.add] or [Histogram.record] with an
    amount that is at least zero, [UpDownCounter.add] with any amount) hands
    the consumer exactly one measurement, made of the amount, the instrument
    and the attributes; a call with a negative amount on a counter or a
    histogram hands it none. *)
Theorem valid_recording_delivers_one_measurement
    (w : world) (self consumer : ref) (amount : number) (attributes : Attributes) :
  Instrument._measurement_consumer (instruments w self) = Some consumer ->
  let delivered (r : run NoneType) :=
    result r = Return tt /\
    consumed (after r) = consumed w ++ [(consumer, Measurement.mk amount self attributes)] in
  let dropped (r : run NoneType) := consumed (after r) = consumed w in
  (non_negative amount -> delivered (Counter.add self amount attributes w)) /\
  (non_negative amount -> delivered (Histogram.record self amount attributes w)) /\
  delivered (UpDownCounter.add self amount attributes w) /\
  (negative amount ->
   dropped (Counter.add self amount attributes w) /\
   dropped (Histogram.record self amount attributes w)).
Proof.
  intros Hconsumer delivered dropped. subst delivered dropped.
  unfold Counter.add, Histogram.record, UpDownCounter.add.
  split; [| split; [| split]].
  - intros Hpos. apply non_negative_lt_zero in Hpos. rewrite Hpos.
    unfold mbind, M_bind, getattr. rewrite Hconsumer. split; reflexivity.
  - intros Hpos. apply non_negative_lt_zero in Hpos. rewrite Hpos.
    unfold mbind, M_bind, getattr. rewrite Hconsumer. split; reflexivity.
  - unfold mbind, M_bind, getattr. rewrite Hconsumer. split; reflexivity.
  - intros Hneg. apply negative_lt_zero in Hneg. rewrite Hneg.
    unfold mbind, M_bind, getattr.
    destruct (Instrument.name (instruments w self)); split; reflexivity.
Qed.

Lemma valid_recording_delivers_one_measurement_witness :
  Instrument._measurement_consumer (instruments counter_world 0%nat) = Some 4%nat /\
  consumed (after (Counter.add 0%nat (int 5) None counter_world)) =
    [(4%nat, Measurement.mk (int 5) 0%nat None)] /\
  consumed (after (UpDownCounter.add 0%nat (int (-5)) None counter_world)) =
    [(4%nat, Measurement.mk (int (-5)) 0%nat None)].
Proof.
  pose proof (valid_recording_delivers_one_measurement counter_world 0%nat 4%nat
                (int 5) None eq_refl) as (HC & _).
  pose proof (valid_recording_delivers_one_measurement counter_world 0%nat 4%nat
                (int (-5)) None eq_refl) as (_ & _ & HU & _).
  split; [reflexivity |].
  split.
  - apply HC. simpl. lia.
  - apply HU.
Defined.

(** ** Validation *)

Lemma forallb_is_ascii (s : str) :
  forallb is_ascii s = true <-> Forall (fun c => c < 128) s.
Proof.
  unfold is_ascii. rewrite forallb_forall, List.Forall_forall.
  split; intros H c Hc; apply N.ltb_lt + apply N.ltb_lt; auto.
Qed.

Lemma forallb_is_ascii_false (s : str) :
  Exists (fun c => 128 <= c) s -> forallb is_ascii s = false.
Proof.
  intros H. apply not_true_is_false. rewrite forallb_is_ascii.
  intros HF. apply List.Exists_exists in H as (c & Hc & Hge).
  rewrite List.Forall_forall in HF. specialize (HF c Hc). lia.
Qed.

Lemma check_valid (name unit : str) :
  valid_name name -> valid_unit unit -> _check_name_and_unit name unit = (true, true).
Proof.
  intros (_ & Hlen & Hascii & Hpat) (Hulen & Huascii).
  unfold _check_name_and_unit.
  rewrite Hpat.
  rewrite (proj2 (forallb_is_ascii name) Hascii), (proj2 (forallb_is_ascii unit) Huascii).
  rewrite (proj2 (Nat.leb_le _ _) Hlen), (proj2 (Nat.leb_le _ _) Hulen).
  reflexivity.
Qed.

Lemma check_invalid_name (name unit : str) :
  invalid_name name -> fst (_check_name_and_unit name unit) = false.
Proof.
  unfold _check_name_and_unit. cbn [fst].
  intros [-> | [Hlen | [Hascii | Hpat]]].
  - reflexivity.
  - rewrite (proj2 (Nat.leb_gt _ _) Hlen). apply andb_false_r.
  - rewrite (forallb_is_ascii_false _ Hascii). rewrite andb_false_r. reflexivity.
  - rewrite Hpat. reflexivity.
Qed.

Lemma check_invalid_unit (name unit : str) :
  invalid_unit unit -> snd (_check_name_and_unit name unit) = false.
Proof.
  unfold _check_name_and_unit. cbn [snd].
  intros [Hlen | Hascii].
  - rewrite (proj2 (Nat.leb_gt _ _) Hlen). apply andb_false_r.
  - rewrite (forallb_is_ascii_false _ Hascii). reflexivity.
Qed.

(** ** Registration of the callbacks *)

Lemma register_loop (self : ref) (callbacks : list CallbackT) :
  forall (acc : list canonical) (w : world),
    Instrument._callbacks (instruments w self) = Some acc ->
    let r := for_in callbacks (fun callback =>
               match callback with
               | generator_object g => _Asynchronous._callbacks_append self (inner g)
               | callable_object f => _Asynchronous._callbacks_append self (as_is f)
               end) w in
    result r = Return tt /\
    yielded r = [] /\
    instruments (after r) self =
      Instrument.set__callbacks (acc ++ map canonical_of callbacks) (instruments w self) /\
    (forall o, o <> self -> instruments (after r) o = instruments w o) /\
    after r = with_instruments (instruments (after r)) w.
Proof.
  induction callbacks as [| c callbacks IH]; intros acc w Hacc; cbv zeta.
  - cbn. rewrite app_nil_r. repeat split.
    + destruct (instruments w self) as [k n u d s m cb]. cbn in *. subst cb. reflexivity.
    + destruct w; reflexivity.
  - match goal with |- context [for_in _ ?b] => set (body := b) in * end.
    set (w1 := with_instruments
                 (<[self := Instrument.set__callbacks (acc ++ [canonical_of c])
                              (instruments w self)]> (instruments w)) w).
    assert (Hstep : body c w = Run [] (Return tt) w1).
    { subst body w1.
      destruct c; unfold _Asynchronous._callbacks_append, mbind, M_bind, getattr;
        rewrite Hacc; reflexivity. }
    cbn [for_in]. rewrite (bind_return (body c) _ w tt) by (rewrite Hstep; reflexivity).
    rewrite Hstep. cbn [result after yielded app].
    specialize (IH (acc ++ [canonical_of c]) w1).
    assert (H1 : Instrument._callbacks (instruments w1 self) = Some (acc ++ [canonical_of c])).
    { subst w1. cbn [instruments with_instruments]. rewrite fn_lookup_insert. reflexivity. }
    specialize (IH H1). cbv zeta in IH.
    destruct IH as (Hres & Hy & Hself & Hother & Hafter).
    split; [exact Hres |]. split; [exact Hy |]. split; [| split].
    + rewrite Hself. subst w1. cbn [instruments with_instruments].
      rewrite fn_lookup_insert. cbn [map]. rewrite <- app_assoc. reflexivity.
    + intros o Ho. rewrite (Hother o Ho). subst w1. cbn [instruments with_instruments].
      apply fn_lookup_insert_ne. congruence.
    + rewrite Hafter at 1. reflexivity.
Qed.

(** ** Instantiation *)

Lemma instantiate_rejected (cls : class) (name : str) (scope consumer : ref)
    (callbacks : option (list CallbackT)) (unit description : str) (w : world)
    (a b : bool) :
  _check_name_and_unit name unit = (a, b) ->
  a && b = false ->
  instantiate cls name scope consumer callbacks unit description w =
  Run [] (Raise (Exception "Exception" (format _ERROR_MESSAGE [if a then unit else name])))
      (with_allocated (S (allocated w))
         (with_instruments (<[allocated w := Instrument.blank cls]> (instruments w)) w)).
Proof.
  intros Hcheck Hab.
  unfold instantiate, __new__, mbind, M_bind. cbn [result after yielded].
  destruct cls; unfold _Synchronous.__init__, _Asynchronous.__init__;
    rewrite Hcheck; destruct a, b; try discriminate; reflexivity.
Qed.

Lemma synchronous_init_accepted (self : ref) (name : str) (scope consumer : ref)
    (unit description : str) (w : world) :
  _check_name_and_unit name unit = (true, true) ->
  let r := _Synchronous.__init__ self name scope consumer unit description w in
  result r = Return tt /\
  yielded r = [] /\
  instruments (after r) self =
    Instrument.mk (Instrument.class_ (instruments w self))
      (Some (lower name)) (Some unit) (Some description) (Some scope) (Some consumer)
      (Instrument._callbacks (instruments w self)) /\
  (forall o, o <> self -> instruments (after r) o = instruments w o) /\
  after r = with_instruments (instruments (after r)) w.
Proof.
  intros Hcheck. cbv zeta. unfold _Synchronous.__init__. rewrite Hcheck. cbn [negb].
  repeat (rewrite setattr_bind; cbv beta).
  unfold super___init__, pass, mret, M_ret. cbn [result yielded after].
  split; [reflexivity |]. split; [reflexivity |]. split; [| split].
  - rewrite !setattr_self. reflexivity.
  - intros o Ho. rewrite !setattr_other by exact Ho. reflexivity.
  - repeat (eapply frame_trans; [| apply setattr_frame]). symmetry. apply world_eta.
Qed.

Lemma asynchronous_init_accepted (self : ref) (name : str) (scope consumer : ref)
    (callbacks : option (list CallbackT)) (unit description : str) (w : world) :
  _check_name_and_unit name unit = (true, true) ->
  let r := _Asynchronous.__init__ self name scope consumer callbacks unit description w in
  result r = Return tt /\
  yielded r = [] /\
  instruments (after r) self =
    Instrument.mk (Instrument.class_ (instruments w self))
      (Some (lower name)) (Some unit) (Some description) (Some scope) (Some consumer)
      (Some (map canonical_of (default [] callbacks))) /\
  (forall o, o <> self -> instruments (after r) o = instruments w o) /\
  after r = with_instruments (instruments (after r)) w.
Proof.
  intros Hcheck. cbv zeta. unfold _Asynchronous.__init__. rewrite Hcheck. cbn [negb].
  repeat (rewrite setattr_bind; cbv beta).
  unfold super___init__. rewrite pass_bind. rewrite setattr_bind.
  match goal with |- context [after (setattr self (Instrument.set__callbacks []) ?w7)] =>
    set (w6 := w7) end.
  set (w1 := after (setattr self (Instrument.set__callbacks []) w6)).
  assert (H6self : instruments w6 self =
            Instrument.mk (Instrument.class_ (instruments w self))
              (Some (lower name)) (Some unit) (Some description) (Some scope) (Some consumer)
              (Instrument._callbacks (instruments w self))).
  { subst w6. rewrite !setattr_self. reflexivity. }
  assert (H6other : forall o, o <> self -> instruments w6 o = instruments w o).
  { intros o Ho. subst w6. rewrite !setattr_other by exact Ho. reflexivity. }
  assert (H6frame : w6 = with_instruments (instruments w6) w).
  { subst w6. repeat (eapply frame_trans; [| apply setattr_frame]).
    symmetry. apply world_eta. }
  clearbody w6.
  assert (H1self : instruments w1 self =
            Instrument.mk (Instrument.class_ (instruments w self))
              (Some (lower name)) (Some unit) (Some description) (Some scope) (Some consumer)
              (Some [])).
  { subst w1. rewrite setattr_self, H6self. reflexivity. }
  assert (H1other : forall o, o <> self -> instruments w1 o = instruments w o).
  { intros o Ho. subst w1. rewrite setattr_other by exact Ho. apply H6other, Ho. }
  assert (H1frame : w1 = with_instruments (instruments w1) w).
  { subst w1. eapply frame_trans; [exact H6frame | apply setattr_frame]. }
  clearbody w1. clear w6 H6self H6other H6frame.
  destruct callbacks as [callbacks |]; cbn [default].
  - assert (Hcb : Instrument._callbacks (instruments w1 self) = Some [])
      by (rewrite H1self; reflexivity).
    destruct (register_loop self callbacks [] w1 Hcb) as (Hres & Hy & Hself & Hother & Hafter).
    split; [exact Hres |]. split; [exact Hy |]. split; [| split].
    + rewrite Hself, H1self. reflexivity.
    + intros o Ho. rewrite (Hother o Ho). apply H1other, Ho.
    + eapply frame_trans; [exact H1frame | exact Hafter].
  - unfold pass, mret, M_ret. cbn [result yielded after map].
    split; [reflexivity |]. split; [reflexivity |]. split; [| split].
    + exact H1self.
    + exact H1other.
    + exact H1frame.
Qed.

Lemma instantiate_accepted (cls : class) (name : str) (scope consumer : ref)
    (callbacks : option (list CallbackT)) (unit description : str) (w : world) :
  _check_name_and_unit name unit = (true, true) ->
  let r := instantiate cls name scope consumer callbacks unit description w in
  result r = Return (allocated w) /\
  yielded r = [] /\
  instruments (after r) (allocated w) =
    Instrument.mk cls (Some (lower name)) (Some unit) (Some description)
      (Some scope) (Some consumer)
      (if is_observable cls then Some (map canonical_of (default [] callbacks)) else None) /\
  (forall o, o <> allocated w -> instruments (after r) o = instruments w o) /\
  after r = with_allocated (S (allocated w)) (with_instruments (instruments (after r)) w).
Proof.
  intros Hcheck. cbv zeta. unfold instantiate. rewrite new_bind.
  set (self := allocated w). set (w0 := after (__new__ cls w)).
  assert (H0self : instruments w0 self = Instrument.blank cls).
  { subst w0 self. cbn [__new__ after instruments with_instruments with_allocated].
    apply fn_lookup_insert. }
  assert (H0other : forall o, o <> self -> instruments w0 o = instruments w o).
  { intros o Ho. subst w0 self.
    cbn [__new__ after instruments with_instruments with_allocated].
    apply fn_lookup_insert_ne. congruence. }
  assert (H0frame : w0 = with_allocated (S (allocated w)) (with_instruments (instruments w0) w))
    by reflexivity.
  clearbody w0.
  match goal with |- context [(?init0 ≫= _) w0] => set (init := init0) end.
  assert (Hinit : result (init w0) = Return tt /\ yielded (init w0) = [] /\
            instruments (after (init w0)) self =
              Instrument.mk cls (Some (lower name)) (Some unit) (Some description)
                (Some scope) (Some consumer)
                (if is_observable cls
                 then Some (map canonical_of (default [] callbacks)) else None) /\
            (forall o, o <> self -> instruments (after (init w0)) o = instruments w0 o) /\
            after (init w0) = with_instruments (instruments (after (init w0))) w0).
  { subst init. destruct cls; cbn [is_observable].
    1-3: pose proof (synchronous_init_accepted self name scope consumer unit description
                       w0 Hcheck) as H; cbv zeta in H; rewrite H0self in H; exact H.
    all: pose proof (asynchronous_init_accepted self name scope consumer callbacks unit
                       description w0 Hcheck) as H; cbv zeta in H; rewrite H0self in H;
      exact H. }
  destruct Hinit as (Hres & Hy & Hself & Hother & Hafter).
  rewrite (bind_return init _ w0 tt Hres), Hy. clearbody init.
  unfold mret, M_ret. cbn [result yielded after app].
  split; [reflexivity |]. split; [reflexivity |]. split; [exact Hself |]. split.
  - intros o Ho. rewrite (Hother o Ho). apply H0other, Ho.
  - revert Hafter. generalize (instruments (after (init w0))). intros i ->.
    rewrite H0frame. reflexivity.
Qed.

Lemma check_name_false (name unit : str) :
  fst (_check_name_and_unit name unit) = false -> invalid_name name.
Proof.
  unfold _check_name_and_unit, invalid_name. cbn [fst].
  intros H. apply andb_false_iff in H as [H | H].
  - apply andb_false_iff in H as [H | H].
    + right. right. right. exact H.
    + right. right. left.
      apply not_true_iff_false in H. rewrite forallb_is_ascii in H.
      apply List.Exists_Forall_neg in H.
      * eapply List.Exists_impl; [|exact H]. cbn. intros c Hc. lia.
      * intros c. destruct (N.lt_ge_cases c 128); [left | right]; lia.
  - right. left. apply Nat.leb_gt. exact H.
Qed.

(** C6. When the name or the unit is invalid, instantiating any of the six
    classes raises an error whose message ends with the offending string,
    and nothing has been assigned by then: the new object has none of its
    attributes, and [__init__] leaves the store as it found it. *)
Theorem invalid_identifier_is_rejected_before_any_assignment
    (cls : class) (name : str) (scope consumer : ref)
    (callbacks : option (list CallbackT)) (unit description : str) (w : world) :
  invalid_name name \/ invalid_unit unit ->
  (let r := instantiate cls name scope consumer callbacks unit description w in
   exists offending message,
     (offending = name /\ invalid_name name \/ offending = unit /\ invalid_unit unit) /\
     result r = Raise (Exception "Exception" message) /\
     message =
       code_points "Expected ASCII string of maximum length 63 characters but got "
       ++ offending /\
     contains message offending /\
     instruments (after r) (allocated w) = Instrument.blank cls /\
     (forall o, o <> allocated w -> instruments (after r) o = instruments w o)) /\
  (forall self,
     after (_Synchronous.__init__ self name scope consumer unit description w) = w /\
     after (_Asynchronous.__init__ self name scope consumer callbacks unit description w) = w).
Proof.
  intros Hinvalid.
  destruct (_check_name_and_unit name unit) as [a b] eqn:Hcheck.
  assert (Hab : a && b = false).
  { destruct Hinvalid as [Hn | Hu].
    - apply (check_invalid_name name unit) in Hn. rewrite Hcheck in Hn. cbn in Hn.
      subst a. reflexivity.
    - apply (check_invalid_unit name unit) in Hu. rewrite Hcheck in Hu. cbn in Hu.
      subst b. apply andb_false_r. }
  split.
  - cbv zeta. rewrite (instantiate_rejected _ _ _ _ _ _ _ _ a b Hcheck Hab).
    cbn [result after instruments with_instruments with_allocated].
    exists (if a then unit else name), (format _ERROR_MESSAGE [if a then unit else name]).
    split; [| split; [reflexivity | split; [apply format_error_message | split; [| split]]]].
    + destruct a.
      * right. split; [reflexivity |]. destruct Hinvalid as [Hn | Hu]; [| exact Hu].
        apply (check_invalid_name name unit) in Hn. rewrite Hcheck in Hn. discriminate.
      * left. split; [reflexivity |]. apply (check_name_false name unit).
        rewrite Hcheck. reflexivity.
    + rewrite format_error_message. apply contains_end.
    + apply fn_lookup_insert.
    + intros o Ho. apply fn_lookup_insert_ne. congruence.
  - intros self. unfold _Synchronous.__init__, _Asynchronous.__init__.
    rewrite Hcheck. destruct a, b; try discriminate; split; reflexivity.
Qed.

Lemma invalid_identifier_is_rejected_before_any_assignment_witness :
  (invalid_name (code_points "9lives") \/ invalid_unit []) /\
  exists offending message,
    (offending = code_points "9lives" /\ invalid_name (code_points "9lives") \/
     offending = [] /\ invalid_unit []) /\
    result (instantiate Histogram (code_points "9lives") 3%nat 4%nat None [] [] empty_world) =
      Raise (Exception "Exception" message) /\
    message =
      code_points "Expected ASCII string of maximum length 63 characters but got "
      ++ offending /\
    contains message offending /\
    instruments
      (after (instantiate Histogram (code_points "9lives") 3%nat 4%nat None [] [] empty_world))
      (allocated empty_world) = Instrument.blank Histogram /\
    (forall o, o <> allocated empty_world ->
       instruments
         (after (instantiate Histogram (code_points "9lives") 3%nat 4%nat None [] [] empty_world))
         o = instruments empty_world o).
Proof.
  assert (H : invalid_name (code_points "9lives") \/ invalid_unit []).
  { left. right. right. right. reflexivity. }
  split; [exact H |].
  exact (proj1 (invalid_identifier_is_rejected_before_any_assignment
                  Histogram (code_points "9lives") 3%nat 4%nat None [] [] empty_world H)).
Defined.

(** C7. When the name and the unit are valid, instantiating any of the six
    classes succeeds; the new object holds the name in lower case, and the
    unit, the description, the scope and the consumer as they were given. *)
Theorem valid_identifier_is_accepted
    (cls : class) (name : str) (scope consumer : ref)
    (callbacks : option (list CallbackT)) (unit description : str) (w : world) :
  valid_name name ->
  valid_unit unit ->
  let r := instantiate cls name scope consumer callbacks unit description w in
  let self := instruments (after r) (allocated w) in
  result r = Return (allocated w) /\
  Instrument.class_ self = cls /\
  Instrument.name self = Some (lower name) /\
  Instrument.unit self = Some unit /\
  Instrument.description self = Some description /\
  Instrument.instrumentation_scope self = Some scope /\
  Instrument._measurement_consumer self = Some consumer.
Proof.
  intros Hname Hunit.
  destruct (instantiate_accepted cls name scope consumer callbacks unit description w
              (check_valid name unit Hname Hunit)) as (Hres & _ & Hself & _).
  cbv zeta. rewrite Hself. repeat split. exact Hres.
Qed.

Lemma valid_identifier_is_accepted_witness :
  valid_name (code_points "Cpu.Time") /\
  valid_unit (code_points "s") /\
  Instrument.name (instruments observer_world 0%nat) = Some (code_points "cpu.time") /\
  Instrument.unit (instruments observer_world 0%nat) = Some (code_points "s").
Proof.
  assert (Hn : valid_name (code_points "Cpu.Time")).
  { split; [discriminate |]. split; [cbn; lia |]. split; [| reflexivity].
    repeat constructor. }
  assert (Hu : valid_unit (code_points "s")).
  { split; [cbn; lia |]. repeat constructor. }
  split; [exact Hn |]. split; [exact Hu |].
  pose proof (valid_identifier_is_accepted ObservableCounter (code_points "Cpu.Time")
                3%nat 4%nat (Some [generator_object 7; generator_object 8])
                (code_points "s") [] producers_world Hn Hu) as H.
  cbv zeta in H. destruct H as (_ & _ & Hname & Hunit & _).
  split; [exact Hname | exact Hunit].
Defined.

(** ** The wrappers of the generators *)

Lemma instantiate_returns_only_when_valid (cls : class) (name : str) (scope consumer : ref)
    (callbacks : option (list CallbackT)) (unit description : str) (w : world) (self : ref) :
  result (instantiate cls name scope consumer callbacks unit description w) = Return self ->
  _check_name_and_unit name unit = (true, true).
Proof.
  destruct (_check_name_and_unit name unit) as [a b] eqn:Hcheck.
  destruct (a && b) eqn:Hab.
  - destruct a, b; try discriminate. reflexivity.
  - rewrite (instantiate_rejected _ _ _ _ _ _ _ _ a b Hcheck Hab). discriminate.
Qed.

Lemma invoke_inner (g : ref) (v : world) :
  invoke (inner g) v =
  Run [] (fst (next_ (generators v g)))
      (with_generators (<[g := snd (next_ (generators v g))]> (generators v))
         (with_invoked (invoked v ++ [inner g]) v)).
Proof.
  unfold invoke. cbn [generators with_invoked].
  destruct (next_ (generators v g)) as [o g']. reflexivity.
Qed.

Lemma invoke_as_is (f : ref) (v : world) :
  invoke (as_is f) v =
  Run [] (fst (call_ (callables v f)))
      (with_callables (<[f := snd (call_ (callables v f))]> (callables v))
         (with_invoked (invoked v ++ [as_is f]) v)).
Proof. reflexivity. Qed.

(** C9. When generators are registered in one construction call, the
    entry of [_callbacks] at each position is the wrapper of the generator
    registered at that position; invoking the wrapper of a generator returns
    what one [next] of that generator returns and advances that generator by
    that one step, leaving every other generator and every callable as they
    were. *)
Theorem each_wrapper_is_bound_to_its_own_producer
    (cls : class) (name : str) (scope consumer : ref)
    (callbacks : list CallbackT) (unit description : str) (w : world) (self : ref) :
  is_observable cls = true ->
  result (instantiate cls name scope consumer (Some callbacks) unit description w) =
    Return self ->
  let w' := after (instantiate cls name scope consumer (Some callbacks) unit description w) in
  (exists registered,
     Instrument._callbacks (instruments w' self) = Some registered /\
     length registered = length callbacks /\
     forall i g,
       callbacks !! i = Some (generator_object g) -> registered !! i = Some (inner g)) /\
  (forall (g : ref) (v : world),
     let r := invoke (inner g) v in
     result r = fst (next_ (generators v g)) /\
     generators (after r) g = snd (next_ (generators v g)) /\
     (forall g', g' <> g -> generators (after r) g' = generators v g') /\
     callables (after r) = callables v).
Proof.
  intros Hcls Hres w'.
  pose proof (instantiate_returns_only_when_valid _ _ _ _ _ _ _ _ _ Hres) as Hcheck.
  destruct (instantiate_accepted cls name scope consumer (Some callbacks) unit description w
              Hcheck) as (Hret & _ & Hself & _).
  rewrite Hret in Hres. injection Hres as <-.
  split.
  - exists (map canonical_of callbacks). subst w'. rewrite Hself, Hcls. cbn.
    split; [reflexivity |]. split; [apply length_map |].
    intros i g Hi. rewrite list_lookup_fmap, Hi. reflexivity.
  - intros g v. cbv zeta. rewrite invoke_inner.
    cbn [result after generators callables with_generators with_invoked].
    split; [reflexivity |]. split; [apply fn_lookup_insert |].
    split; [| reflexivity].
    intros g' Hg'. apply fn_lookup_insert_ne. congruence.
Qed.

Lemma each_wrapper_is_bound_to_its_own_producer_witness :
  Instrument._callbacks (instruments observer_world 0%nat) = Some [inner 7; inner 8] /\
  resumed (generators (after (invoke (inner 7) observer_world)) 7%nat) = 1%nat /\
  generators (after (invoke (inner 7) observer_world)) 8%nat =
    generators observer_world 8%nat.
Proof.
  pose proof (each_wrapper_is_bound_to_its_own_producer
                ObservableCounter (code_points "Cpu.Time") 3%nat 4%nat
                [generator_object 7; generator_object 8] (code_points "s") []
                producers_world 0%nat eq_refl eq_refl) as [_ Hadvance].
  destruct (Hadvance 7%nat observer_world) as (_ & Hown & Hothers & _).
  split; [reflexivity |]. split.
  - rewrite Hown. reflexivity.
  - apply Hothers. discriminate.
Defined.

(** ** One pass of the collection loop *)

Lemma for_each_yield (self : ref) (it : iterable) (w : world) :
  for_each it (fun api_measurement =>
    yield (Measurement.mk (APIMeasurement.value api_measurement) self
             (APIMeasurement.attributes api_measurement))) w =
  Run (map (measurement_of self) (items it))
      (match ending it with
       | Some e => if isinstance_StopIteration e then Return tt else Raise e
       | None => Return tt
       end) w.
Proof.
  induction it as [| m rest IH | e]; cbn [for_each items ending map].
  - reflexivity.
  - unfold mbind, M_bind. cbn [yield result after yielded].
    rewrite IH. cbn [result after yielded].
    destruct (ending rest) as [e |]; [destruct (isinstance_StopIteration e) |]; reflexivity.
  - destruct (isinstance_StopIteration e); reflexivity.
Qed.

Lemma invoke_yields_nothing (c : canonical) (w : world) : yielded (invoke c w) = [].
Proof. destruct c; [rewrite invoke_inner | rewrite invoke_as_is]; reflexivity. Qed.

Lemma invoke_frame (c : canonical) (w : world) :
  instruments (after (invoke c w)) = instruments w /\
  _logger (after (invoke c w)) = _logger w /\
  consumed (after (invoke c w)) = consumed w /\
  allocated (after (invoke c w)) = allocated w /\
  invoked (after (invoke c w)) = invoked w ++ [c].
Proof. destruct c; [rewrite invoke_inner | rewrite invoke_as_is]; repeat split. Qed.

Lemma attempt_body_run (self : ref) (c : canonical) (w : world) :
  (invoke c ≫= fun it =>
     for_each it (fun api_measurement =>
       yield (Measurement.mk (APIMeasurement.value api_measurement) self
                (APIMeasurement.attributes api_measurement)))) w =
  Run (map (measurement_of self) (produced (result (invoke c w))))
      (match result (invoke c w) with
       | Return it =>
           match ending it with
           | Some e => if isinstance_StopIteration e then Return tt else Raise e
           | None => Return tt
           end
       | Raise e => Raise e
       end)
      (after (invoke c w)).
Proof.
  pose proof (invoke_yields_nothing c w) as Hy.
  destruct (result (invoke c w)) as [it | e] eqn:Hr.
  - rewrite (bind_return _ _ w it Hr), for_each_yield, Hy. reflexivity.
  - rewrite (bind_raise _ _ w e Hr), Hy. reflexivity.
Qed.

(** What one pass does, read off what the invocation of the callback did. *)
Lemma attempt_run (self : ref) (c : canonical) (w : world) (name : str) :
  Instrument.name (instruments w self) = Some name ->
  let r0 := invoke c w in
  _Asynchronous.attempt self c w =
  Run (map (measurement_of self) (produced (result r0)))
      (propagated (result r0))
      (with__logger (_logger (after r0) ++ logged (result r0) name) (after r0)).
Proof.
  intros Hname r0. subst r0.
  assert (Hname0 : Instrument.name (instruments (after (invoke c w)) self) = Some name).
  { rewrite (proj1 (invoke_frame c w)). exact Hname. }
  assert (Hnil : forall v : world, with__logger (_logger v ++ []) v = v).
  { intros v. rewrite app_nil_r. destruct v; reflexivity. }
  assert (Hlog : forall e,
            (name0 ← getattr self Instrument.name "name" ;
             _logger_exception e (code_points "Callback failed for instrument %s.") [name0])
              (after (invoke c w)) =
            Run [] (Return tt)
              (with__logger (_logger (after (invoke c w)) ++ [callback_failed e name])
                 (after (invoke c w)))).
  { intros e. unfold mbind, M_bind, getattr. rewrite Hname0. reflexivity. }
  unfold _Asynchronous.attempt, try_except. rewrite attempt_body_run. cbv zeta.
  cbn [result after yielded].
  unfold propagated, logged, raised, _Asynchronous.handlers.
  destruct (result (invoke c w)) as [it | e]; cbn [produced].
  - destruct (ending it) as [e |]; [| rewrite Hnil; reflexivity].
    destruct (isinstance_StopIteration e) eqn:Hstop; [rewrite Hnil; reflexivity |].
    rewrite Hstop.
    destruct (isinstance_Exception e); [| rewrite Hnil; reflexivity].
    rewrite Hlog. cbn [result after yielded]. rewrite app_nil_r. reflexivity.
  - destruct (isinstance_StopIteration e) eqn:Hstop.
    + unfold pass, mret, M_ret. cbn [result after yielded app]. rewrite Hnil. reflexivity.
    + destruct (isinstance_Exception e); [| rewrite Hnil; reflexivity].
      rewrite Hlog. cbn [result after yielded app]. reflexivity.
Qed.

Lemma propagated_cases (o : outcome iterable) :
  propagated o = Return tt \/
  exists e, propagated o = Raise e /\ raised o = Some e /\ isinstance_Exception e = false.
Proof.
  unfold propagated. destruct (raised o) as [e |]; [| left; reflexivity].
  destruct (isinstance_StopIteration e); [left; reflexivity |].
  destruct (isinstance_Exception e) eqn:He; [left; reflexivity |].
  right. exists e. repeat split. exact He.
Qed.

(** ** The loop over the callbacks *)

Lemma cycle_cons (self : ref) (c : canonical) (callbacks : list canonical) (w : world) :
  cycle self (c :: callbacks) w =
  let r := _Asynchronous.attempt self c w in
  match result r with
  | Return _ =>
      let r' := cycle self callbacks (after r) in
      Run (yielded r ++ yielded r') (result r') (after r')
  | Raise e => Run (yielded r) (Raise e) (after r)
  end.
Proof. reflexivity. Qed.

Lemma cycle_app (self : ref) (first second : list canonical) :
  forall w,
    cycle self (first ++ second) w =
    let r := cycle self first w in
    match result r with
    | Return _ =>
        let r' := cycle self second (after r) in
        Run (yielded r ++ yielded r') (result r') (after r')
    | Raise e => Run (yielded r) (Raise e) (after r)
    end.
Proof.
  induction first as [| c first IH]; intros w.
  - cbn. symmetry. apply run_eta.
  - cbn [app]. rewrite !cycle_cons. cbv zeta.
    destruct (result (_Asynchronous.attempt self c w)) as [[] | e].
    + rewrite IH. cbv zeta.
      destruct (result (cycle self first (after (_Asynchronous.attempt self c w)))) as [[] | e];
        cbn [result after yielded]; rewrite ?app_assoc; reflexivity.
    + reflexivity.
Qed.

Lemma callback_is_cycle (self : ref) (callbacks : list canonical) (w : world) :
  Instrument._callbacks (instruments w self) = Some callbacks ->
  _Asynchronous.callback self w = cycle self callbacks w.
Proof.
  intros H. unfold _Asynchronous.callback, mbind, M_bind, getattr. rewrite H.
  cbn [result after yielded app]. apply run_eta.
Qed.

(** The loop leaves the instruments, the consumers and the allocator as
    they were; it ends normally after invoking every callback in order, or
    it ends with what a callback raised outside [Exception], after invoking
    the callbacks up to that one. *)
Lemma cycle_spec (self : ref) (name : str) (callbacks : list canonical) :
  forall w,
    Instrument.name (instruments w self) = Some name ->
    let r := cycle self callbacks w in
    instruments (after r) = instruments w /\
    consumed (after r) = consumed w /\
    allocated (after r) = allocated w /\
    match result r with
    | Return _ => invoked (after r) = invoked w ++ callbacks
    | Raise e =>
        isinstance_Exception e = false /\
        exists before c later,
          callbacks = before ++ c :: later /\
          invoked (after r) = invoked w ++ before ++ [c]
    end.
Proof.
  induction callbacks as [| c callbacks IH]; intros w Hname.
  - cbn. rewrite app_nil_r. repeat split.
  - cbv zeta. rewrite cycle_cons. cbv zeta.
    rewrite (attempt_run self c w name Hname). cbv zeta. cbn [result after yielded].
    destruct (invoke_frame c w) as (Hi & Hl & Hc & Ha & Ht).
    destruct (propagated_cases (result (invoke c w))) as [Hp | (e & Hp & _ & He)];
      rewrite Hp.
    + match goal with |- context [cycle self callbacks ?w1] =>
        specialize (IH w1) end.
      cbn [instruments with__logger] in IH. rewrite Hi in IH.
      specialize (IH Hname). cbv zeta in IH.
      destruct IH as (IHi & IHc & IHa & IHr).
      cbn [result after yielded].
      cbn [consumed allocated invoked with__logger] in IHc, IHa, IHr.
      split; [congruence |]. split; [congruence |]. split; [congruence |].
      match goal with |- match result ?r with _ => _ end =>
        destruct (result r) as [[] | e] end.
      * rewrite IHr, Ht, <- app_assoc. reflexivity.
      * destruct IHr as (He & before & c' & later & Hsplit & Htrace).
        split; [exact He |]. exists (c :: before), c', later.
        split; [cbn; congruence |].
        rewrite Htrace, Ht, <- !app_assoc. reflexivity.
    + cbn [result after instruments consumed allocated invoked with__logger].
      repeat split; try assumption.
      exists [], c, callbacks. split; [reflexivity |]. exact Ht.
Qed.

(** When the loop ends with a raise, the raised object is what one of the
    callbacks raised at its turn, outside [Exception], after the callbacks
    before it had let the loop go on. *)
Lemma cycle_raise_origin (self : ref) (name : str) (callbacks : list canonical) :
  forall (w : world) (e : exn),
    Instrument.name (instruments w self) = Some name ->
    result (cycle self callbacks w) = Raise e ->
    exists before c later,
      callbacks = before ++ c :: later /\
      result (cycle self before w) = Return tt /\
      raised (result (invoke c (after (cycle self before w)))) = Some e /\
      isinstance_Exception e = false /\
      invoked (after (cycle self callbacks w)) = invoked w ++ before ++ [c].
Proof.
  induction callbacks as [| c callbacks IH]; intros w e Hname Hraise; [discriminate |].
  rewrite cycle_cons in Hraise |- *. cbv zeta in Hraise |- *.
  rewrite (attempt_run self c w name Hname) in Hraise |- *. cbv zeta in Hraise |- *.
  cbn [result after yielded] in Hraise |- *.
  destruct (invoke_frame c w) as (Hi & _ & _ & _ & Ht).
  destruct (propagated_cases (result (invoke c w))) as [Hp | (e0 & Hp & Hraised & He0)];
    rewrite Hp in Hraise |- *; cbn [result after] in Hraise |- *.
  - set (w2 := with__logger (_logger (after (invoke c w))
                             ++ logged (result (invoke c w)) name)
                 (after (invoke c w))) in *.
    assert (Hname2 : Instrument.name (instruments w2 self) = Some name).
    { subst w2. cbn [instruments with__logger]. rewrite Hi. exact Hname. }
    destruct (IH w2 e Hname2 Hraise)
      as (before & c' & later & Hsplit & Hbefore & Horigin & He & Htrace).
    assert (Hrun : cycle self (c :: before) w =
              Run (map (measurement_of self) (produced (result (invoke c w)))
                     ++ yielded (cycle self before w2))
                  (result (cycle self before w2)) (after (cycle self before w2))).
    { rewrite cycle_cons. cbv zeta. rewrite (attempt_run self c w name Hname). cbv zeta.
      cbn [result after yielded]. rewrite Hp. reflexivity. }
    exists (c :: before), c', later.
    split; [cbn [app]; congruence |].
    rewrite Hrun. cbn [result after].
    split; [exact Hbefore |]. split; [exact Horigin |]. split; [exact He |].
    rewrite Htrace. subst w2. cbn [invoked with__logger]. rewrite Ht, <- app_assoc.
    reflexivity.
  - injection Hraise as <-.
    exists [], c, callbacks. cbn [result after app invoked with__logger].
    split; [reflexivity |]. split; [reflexivity |]. split; [exact Hraised |].
    split; [exact He0 | exact Ht].
Qed.

(** A cycle through the callbacks before [c], then [c], then the rest. *)
Lemma callback_split (self : ref) (name : str) (first : list canonical) (c : canonical)
    (later : list canonical) (w : world) :
  Instrument.name (instruments w self) = Some name ->
  Instrument._callbacks (instruments w self) = Some (first ++ c :: later) ->
  result (cycle self first w) = Return tt ->
  let w1 := after (cycle self first w) in
  let r0 := invoke c w1 in
  let w2 := with__logger (_logger (after r0) ++ logged (result r0) name) (after r0) in
  _Asynchronous.callback self w =
  match propagated (result r0) with
  | Return _ =>
      Run (yielded (cycle self first w)
             ++ map (measurement_of self) (produced (result r0))
             ++ yielded (cycle self later w2))
          (result (cycle self later w2))
          (after (cycle self later w2))
  | Raise e =>
      Run (yielded (cycle self first w)
             ++ map (measurement_of self) (produced (result r0)))
          (Raise e) w2
  end.
Proof.
  intros Hname Hcbs Hfirst w1 r0 w2.
  rewrite (callback_is_cycle self _ w Hcbs), cycle_app. cbv zeta. rewrite Hfirst.
  fold w1. rewrite cycle_cons. cbv zeta.
  assert (Hname1 : Instrument.name (instruments w1 self) = Some name).
  { subst w1. rewrite (proj1 (cycle_spec self name first w Hname)). exact Hname. }
  rewrite (attempt_run self c w1 name Hname1). cbv zeta. fold r0. fold w2.
  cbn [result after yielded].
  destruct (propagated (result r0)) as [[] | e]; reflexivity.
Qed.

(** ** Isolation of the callbacks *)

(** C1 as the specification states it fails: a callback that raises
    [KeyboardInterrupt] makes the cycle raise it, and the callback registered
    after it is not invoked. *)
Lemma keyboard_interrupt_leaves_the_cycle :
  Instrument._callbacks (instruments interrupted_world 0%nat) = Some [as_is 1; as_is 2] /\
  result (_Asynchronous.callback 0%nat interrupted_world) =
    Raise (BaseException "KeyboardInterrupt") /\
  result (_Asynchronous.callback 0%nat interrupted_world) <> Return tt /\
  invoked (after (_Asynchronous.callback 0%nat interrupted_world)) = [as_is 1].
Proof. repeat split. discriminate. Qed.

(** C1, amended. Consuming [callback()] to its end never raises an instance
    of [Exception]: either it ends normally, and then every registered
    callback has been invoked, once and in registration order; or it raises
    the very object that one of the callbacks raised at its turn, outside
    [Exception], after the callbacks before that one had let the cycle go
    on and without invoking those after it.  A callback that fails with an
    instance of [Exception] is followed by the invocation of the callback
    registered next. *)
Theorem only_non_exceptions_leave_the_cycle
    (self : ref) (name : str) (callbacks : list canonical) (w : world) :
  Instrument.name (instruments w self) = Some name ->
  Instrument._callbacks (instruments w self) = Some callbacks ->
  let r := _Asynchronous.callback self w in
  match result r with
  | Return _ => invoked (after r) = invoked w ++ callbacks
  | Raise e =>
      isinstance_Exception e = false /\
      exists before c later,
        callbacks = before ++ c :: later /\
        result (cycle self before w) = Return tt /\
        raised (result (invoke c (after (cycle self before w)))) = Some e /\
        invoked (after r) = invoked w ++ before ++ [c]
  end /\
  (forall first c next later e,
     callbacks = first ++ c :: next :: later ->
     result (cycle self first w) = Return tt ->
     raised (result (invoke c (after (cycle self first w)))) = Some e ->
     isinstance_Exception e = true ->
     exists rest, invoked (after r) = invoked w ++ first ++ c :: next :: rest).
Proof.
  intros Hname Hcbs r. subst r.
  rewrite (callback_is_cycle self callbacks w Hcbs).
  split.
  { destruct (result (cycle self callbacks w)) as [[] | e] eqn:Hr.
    - pose proof (proj2 (proj2 (proj2 (cycle_spec self name callbacks w Hname)))) as Hs.
      rewrite Hr in Hs. exact Hs.
    - destruct (cycle_raise_origin self name callbacks w e Hname Hr)
        as (before & c & later & Hsplit & Hbefore & Horigin & He & Htrace).
      split; [exact He |]. exists before, c, later.
      split; [exact Hsplit |]. split; [exact Hbefore |]. split; [exact Horigin |].
      exact Htrace. }
  intros first c next later e -> Hfirst Hraised He.
  destruct (cycle_spec self name first w Hname) as (Hi1 & _ & _ & Ht1).
  rewrite Hfirst in Ht1.
  rewrite cycle_app. cbv zeta. rewrite Hfirst.
  set (w1 := after (cycle self first w)) in *.
  assert (Hname1 : Instrument.name (instruments w1 self) = Some name) by (rewrite Hi1; exact Hname).
  rewrite cycle_cons. cbv zeta. rewrite (attempt_run self c w1 name Hname1). cbv zeta.
  cbn [result after yielded].
  assert (Hp : propagated (result (invoke c w1)) = Return tt).
  { unfold propagated. rewrite Hraised, He. destruct (isinstance_StopIteration e); reflexivity. }
  rewrite Hp.
  set (w2 := with__logger _ (after (invoke c w1))).
  assert (Hname2 : Instrument.name (instruments w2 self) = Some name).
  { subst w2. cbn [instruments with__logger]. rewrite (proj1 (invoke_frame c w1)). exact Hname1. }
  assert (Ht2 : invoked w2 = invoked w ++ first ++ [c]).
  { subst w2. cbn [invoked with__logger].
    destruct (invoke_frame c w1) as (_ & _ & _ & _ & Ht). rewrite Ht, Ht1, <- app_assoc.
    reflexivity. }
  destruct (cycle_spec self name (next :: later) w2 Hname2) as (_ & _ & _ & Ht3).
  cbn [result after yielded].
  destruct (result (cycle self (next :: later) w2)) as [[] | e'].
  - exists later. cbn [after]. rewrite Ht3, Ht2, <- !app_assoc. reflexivity.
  - destruct Ht3 as (_ & before & c' & later' & Hsplit & Htrace).
    cbn [after]. rewrite Htrace, Ht2, <- !app_assoc.
    destruct before as [| b before]; cbn in Hsplit; injection Hsplit as <- Hrest.
    + exists []. reflexivity.
    + exists (before ++ [c']). reflexivity.
Qed.

Lemma only_non_exceptions_leave_the_cycle_witness :
  Instrument.name (instruments recovering_world 0%nat) = Some (code_points "load") /\
  Instrument._callbacks (instruments recovering_world 0%nat) = Some [as_is 3; as_is 2] /\
  result (_Asynchronous.callback 0%nat recovering_world) = Return tt /\
  invoked (after (_Asynchronous.callback 0%nat recovering_world)) = [as_is 3; as_is 2] /\
  raised (result (invoke (as_is 3) (after (cycle 0%nat [] failing_world)))) =
    Some (Exception "ValueError" (code_points "bad")) /\
  exists rest,
    invoked (after (_Asynchronous.callback 0%nat failing_world)) =
      invoked failing_world ++ [] ++ as_is 3 :: as_is 1 :: rest.
Proof.
  pose proof (only_non_exceptions_leave_the_cycle 0%nat (code_points "load")
                [as_is 3; as_is 2] recovering_world eq_refl eq_refl) as [H _].
  pose proof (only_non_exceptions_leave_the_cycle 0%nat (code_points "load")
                [as_is 3; as_is 1] failing_world eq_refl eq_refl) as [_ Hnext].
  cbv zeta in H, Hnext.
  split; [reflexivity |]. split; [reflexivity |]. split; [reflexivity |].
  split.
  - change (result (_Asynchronous.callback 0%nat recovering_world))
      with (@Return NoneType tt) in H.
    exact H.
  - split; [reflexivity |].
    exact (Hnext [] (as_is 3) (as_is 1) []
             (Exception "ValueError" (code_points "bad")) eq_refl eq_refl eq_refl eq_refl).
Defined.

(** ** What the loop leaves behind *)

Lemma items_iter (l : list APIMeasurement.t) : items (iter l) = l.
Proof. induction l as [| m l IH]; cbn [iter items]; congruence. Qed.

Lemma ending_iter (l : list APIMeasurement.t) : ending (iter l) = None.
Proof. induction l as [| m l IH]; cbn [iter ending]; congruence. Qed.

Lemma cycle_nil (self : ref) (w : world) : cycle self [] w = Run [] (Return tt) w.
Proof. reflexivity. Qed.

(** The records of the logger are only ever added to. *)
Lemma cycle_logger_extends (self : ref) (name : str) (callbacks : list canonical) :
  forall w,
    Instrument.name (instruments w self) = Some name ->
    exists records, _logger (after (cycle self callbacks w)) = _logger w ++ records.
Proof.
  induction callbacks as [| c callbacks IH]; intros w Hname.
  - exists []. rewrite cycle_nil, app_nil_r. reflexivity.
  - rewrite cycle_cons. cbv zeta.
    rewrite (attempt_run self c w name Hname). cbv zeta. cbn [result after yielded].
    destruct (invoke_frame c w) as (Hi & Hl & _).
    destruct (propagated (result (invoke c w))) as [[] | e].
    + match goal with |- context [cycle self callbacks ?w1] =>
        destruct (IH w1) as (records & Hrecords) end.
      { cbn [instruments with__logger]. rewrite Hi. exact Hname. }
      cbn [after]. rewrite Hrecords. cbn [_logger with__logger]. rewrite Hl.
      eexists. rewrite <- app_assoc. reflexivity.
    + cbn [after _logger with__logger]. rewrite Hl. eexists. reflexivity.
Qed.

(** A cycle whose callbacks before [c] all let the loop go on invokes [c]. *)
Lemma cycle_reaches (self : ref) (name : str) (first : list canonical) (c : canonical)
    (later : list canonical) (w : world) :
  Instrument.name (instruments w self) = Some name ->
  result (cycle self first w) = Return tt ->
  exists rest,
    invoked (after (cycle self (first ++ c :: later) w)) = invoked w ++ first ++ c :: rest.
Proof.
  intros Hname Hfirst.
  destruct (cycle_spec self name first w Hname) as (Hi1 & _ & _ & Ht1).
  rewrite Hfirst in Ht1.
  rewrite cycle_app. cbv zeta. rewrite Hfirst.
  set (w1 := after (cycle self first w)) in *.
  assert (Hname1 : Instrument.name (instruments w1 self) = Some name)
    by (rewrite Hi1; exact Hname).
  destruct (cycle_spec self name (c :: later) w1 Hname1) as (_ & _ & _ & Ht2).
  destruct (result (cycle self (c :: later) w1)) as [[] | e]; cbn [after].
  - exists later. rewrite Ht2, Ht1, <- app_assoc. reflexivity.
  - destruct Ht2 as (_ & before & c' & later' & Hsplit & Htrace).
    rewrite Htrace, Ht1, <- app_assoc.
    destruct before as [| b before]; cbn [app] in Hsplit; injection Hsplit as <- Hrest.
    + exists []. reflexivity.
    + exists (before ++ [c']). reflexivity.
Qed.

(** ** The order of the output *)

Lemma concat_nils {A B} (l : list A) : concat (map (fun _ => @nil B) l) = [].
Proof. induction l as [| x l IH]; cbn [map concat app]; congruence. Qed.

Lemma batches_length (self : ref) (name : str) (callbacks : list canonical) :
  forall w, length (batches self name callbacks w) = length callbacks.
Proof.
  induction callbacks as [| c callbacks IH]; intros w; cbn [batches length]; [reflexivity |].
  cbv zeta. f_equal.
  destruct (propagated (result (invoke c w))); [apply IH | apply length_map].
Qed.

Lemma cycle_batches (self : ref) (name : str) (callbacks : list canonical) :
  forall w,
    Instrument.name (instruments w self) = Some name ->
    yielded (cycle self callbacks w) = concat (batches self name callbacks w).
Proof.
  induction callbacks as [| c callbacks IH]; intros w Hname; [reflexivity |].
  rewrite cycle_cons. cbv zeta.
  rewrite (attempt_run self c w name Hname). cbv zeta. cbn [result after yielded batches].
  cbv zeta. cbn [concat].
  destruct (propagated (result (invoke c w))) as [[] | e]; cbn [yielded].
  - rewrite IH; [reflexivity |].
    cbn [instruments with__logger]. rewrite (proj1 (invoke_frame c w)). exact Hname.
  - rewrite concat_nils, app_nil_r. reflexivity.
Qed.

Lemma invoke_as_is_returns (f : ref) (w : world) (o : outcome iterable) :
  behaviour (callables w f) (calls (callables w f)) = o ->
  result (invoke (as_is f) w) = o.
Proof. intros <-. rewrite invoke_as_is. reflexivity. Qed.

(** C8. The output of one cycle is the concatenation, in registration
    order, of one batch per registered callback: the measurements made from
    the items that callback produced at its turn.  A plain callable that
    returns a collection of N items contributes exactly N measurements,
    between what the callbacks registered before it and after it
    contributed. *)
Theorem output_is_the_concatenation_in_registration_order
    (self : ref) (name : str) (callbacks : list canonical) (w : world) :
  Instrument.name (instruments w self) = Some name ->
  Instrument._callbacks (instruments w self) = Some callbacks ->
  let r := _Asynchronous.callback self w in
  yielded r = concat (batches self name callbacks w) /\
  length (batches self name callbacks w) = length callbacks /\
  (forall first f later l,
     callbacks = first ++ as_is f :: later ->
     result (cycle self first w) = Return tt ->
     let w1 := after (cycle self first w) in
     behaviour (callables w1 f) (calls (callables w1 f)) = Return (iter l) ->
     let contributed := map (measurement_of self) l in
     length contributed = length l /\
     yielded r =
       yielded (cycle self first w) ++ contributed
       ++ yielded (cycle self later (after (invoke (as_is f) w1)))).
Proof.
  intros Hname Hcbs r. subst r.
  split; [| split].
  - rewrite (callback_is_cycle self callbacks w Hcbs). apply cycle_batches, Hname.
  - apply batches_length.
  - intros first f later l -> Hfirst w1 Hcall contributed.
    split; [apply length_map |].
    pose proof (callback_split self name first (as_is f) later w Hname Hcbs Hfirst) as H.
    cbv zeta in H. fold w1 in H.
    apply invoke_as_is_returns in Hcall.
    rewrite Hcall in H. unfold propagated, logged, raised in H.
    rewrite ending_iter in H. cbn [produced] in H. rewrite items_iter in H.
    rewrite H. cbn [yielded]. subst contributed.
    do 3 f_equal. rewrite app_nil_r. destruct (after (invoke (as_is f) w1)); reflexivity.
Qed.

Lemma output_is_the_concatenation_in_registration_order_witness :
  Instrument.name (instruments recovering_world 0%nat) = Some (code_points "load") /\
  Instrument._callbacks (instruments recovering_world 0%nat) = Some [as_is 3; as_is 2] /\
  yielded (_Asynchronous.callback 0%nat recovering_world) =
    concat (batches 0%nat (code_points "load") [as_is 3; as_is 2] recovering_world) /\
  batches 0%nat (code_points "load") [as_is 3; as_is 2] recovering_world =
    [[Measurement.mk (int 1) 0%nat None]; [Measurement.mk (int 5) 0%nat None]].
Proof.
  pose proof (output_is_the_concatenation_in_registration_order 0%nat (code_points "load")
                [as_is 3; as_is 2] recovering_world eq_refl eq_refl) as [H _].
  split; [reflexivity |]. split; [reflexivity |]. split; [exact H |].
  vm_compute. reflexivity.
Defined.

(** ** Exhaustion *)

Lemma attempt_absorbs_stop (self : ref) (name : str) (c : canonical) (w : world) :
  Instrument.name (instruments w self) = Some name ->
  result (invoke c w) = Raise StopIteration ->
  _Asynchronous.attempt self c w = Run [] (Return tt) (after (invoke c w)).
Proof.
  intros Hname Hstop. rewrite (attempt_run self c w name Hname). cbv zeta.
  rewrite Hstop. unfold propagated, logged, raised. cbn [produced map isinstance_StopIteration].
  rewrite app_nil_r. destruct (after (invoke c w)); reflexivity.
Qed.

Lemma invoke_finished (g : ref) (w : world) :
  finished (generators w g) = true ->
  result (invoke (inner g) w) = Raise StopIteration /\
  generators (after (invoke (inner g) w)) g = generators w g.
Proof.
  intros Hfin. rewrite invoke_inner.
  cbn [result after generators with_generators with_invoked].
  rewrite fn_lookup_insert. unfold next_. rewrite Hfin. split; reflexivity.
Qed.

(** C10. A registered plain callable that raises [StopIteration] at its
    turn is passed over in silence: its pass yields nothing, ends normally
    and logs nothing, the cycle goes on with the callbacks registered after
    it, and it stays registered.  The pass of the wrapper of a finished
    generator comes out the same way. *)
Theorem stop_iteration_from_a_callable_is_absorbed
    (self : ref) (name : str) (first : list canonical) (f : ref)
    (later : list canonical) (w : world) :
  Instrument.name (instruments w self) = Some name ->
  Instrument._callbacks (instruments w self) = Some (first ++ as_is f :: later) ->
  result (cycle self first w) = Return tt ->
  let w1 := after (cycle self first w) in
  behaviour (callables w1 f) (calls (callables w1 f)) = Raise StopIteration ->
  let turn := _Asynchronous.attempt self (as_is f) w1 in
  let r := _Asynchronous.callback self w in
  (yielded turn = [] /\ result turn = Return tt /\ _logger (after turn) = _logger w1) /\
  yielded r = yielded (cycle self first w) ++ yielded (cycle self later (after turn)) /\
  result r = result (cycle self later (after turn)) /\
  Instrument._callbacks (instruments (after r) self) = Some (first ++ as_is f :: later) /\
  (forall g,
     finished (generators w1 g) = true ->
     let turn' := _Asynchronous.attempt self (inner g) w1 in
     yielded turn' = [] /\ result turn' = Return tt /\ _logger (after turn') = _logger w1).
Proof.
  intros Hname Hcbs Hfirst w1 Hcall turn r.
  assert (Hname1 : Instrument.name (instruments w1 self) = Some name).
  { subst w1. rewrite (proj1 (cycle_spec self name first w Hname)). exact Hname. }
  apply invoke_as_is_returns in Hcall.
  pose proof (attempt_absorbs_stop self name (as_is f) w1 Hname1 Hcall) as Hturn.
  fold turn in Hturn.
  split; [| split; [| split; [| split]]].
  - rewrite Hturn. cbn [yielded result after].
    split; [reflexivity |]. split; [reflexivity |]. apply (invoke_frame (as_is f) w1).
  - subst r. rewrite (callback_is_cycle self _ w Hcbs), cycle_app. cbv zeta.
    rewrite Hfirst. fold w1. rewrite cycle_cons. cbv zeta. fold turn. rewrite Hturn.
    cbn [yielded result after app]. reflexivity.
  - subst r. rewrite (callback_is_cycle self _ w Hcbs), cycle_app. cbv zeta.
    rewrite Hfirst. fold w1. rewrite cycle_cons. cbv zeta. fold turn. rewrite Hturn.
    cbn [yielded result after app]. reflexivity.
  - subst r. rewrite (callback_is_cycle self _ w Hcbs).
    rewrite (proj1 (cycle_spec self name _ w Hname)). exact Hcbs.
  - intros g Hfin turn'. subst turn'.
    destruct (invoke_finished g w1 Hfin) as [Hstop _].
    rewrite (attempt_absorbs_stop self name (inner g) w1 Hname1 Hstop).
    cbn [yielded result after].
    split; [reflexivity |]. split; [reflexivity |]. apply (invoke_frame (inner g) w1).
Qed.

Lemma stop_iteration_from_a_callable_is_absorbed_witness :
  Instrument.name (instruments stopping_world 0%nat) = Some (code_points "load") /\
  Instrument._callbacks (instruments stopping_world 0%nat) = Some ([] ++ as_is 4 :: [as_is 2]) /\
  result (cycle 0%nat [] stopping_world) = Return tt /\
  behaviour (callables stopping_world 4%nat) (calls (callables stopping_world 4%nat)) =
    Raise StopIteration /\
  yielded (_Asynchronous.callback 0%nat stopping_world) = [Measurement.mk (int 5) 0%nat None] /\
  _logger (after (_Asynchronous.callback 0%nat stopping_world)) = [].
Proof.
  pose proof (stop_iteration_from_a_callable_is_absorbed 0%nat (code_points "load")
                [] 4%nat [as_is 2] stopping_world eq_refl eq_refl eq_refl eq_refl)
    as (_ & Hy & _).
  split; [reflexivity |]. split; [reflexivity |]. split; [reflexivity |].
  split; [reflexivity |]. split; [| vm_compute; reflexivity].
  rewrite Hy. vm_compute. reflexivity.
Defined.

(** ** A callback that fails *)

(** C4 as the specification states it fails.  With [f3], whose iterator
    produces one reading and then raises [ValueError], registered before
    [f1], which raises [KeyboardInterrupt]: the measurement made from the
    reading of [f3] is part of the output of the cycle in which [f3] failed,
    and the failure of [f1] is not logged (the one record is that of
    [f3]). *)
Lemma failed_callback_has_contributed_its_first_items :
  Instrument._callbacks (instruments failing_world 0%nat) = Some [as_is 3; as_is 1] /\
  raised (result (invoke (as_is 3) failing_world)) =
    Some (Exception "ValueError" (code_points "bad")) /\
  yielded (_Asynchronous.callback 0%nat failing_world) = [Measurement.mk (int 1) 0%nat None] /\
  yielded (_Asynchronous.callback 0%nat failing_world) <> [] /\
  result (_Asynchronous.callback 0%nat failing_world) =
    Raise (BaseException "KeyboardInterrupt") /\
  invoked (after (_Asynchronous.callback 0%nat failing_world)) = [as_is 3; as_is 1] /\
  _logger (after (_Asynchronous.callback 0%nat failing_world)) =
    [callback_failed (Exception "ValueError" (code_points "bad")) (code_points "load")].
Proof.
  split; [reflexivity |]. split; [reflexivity |].
  split; [vm_compute; reflexivity |]. split; [vm_compute; discriminate |].
  split; [vm_compute; reflexivity |]. split; vm_compute; reflexivity.
Qed.

(** C4, amended. When a callback fails at its turn with an instance of
    [Exception] other than [StopIteration], raised by the call or while the
    cycle iterates over what the call returned: its pass ends normally and
    adds exactly one record to the log, of level ERROR, that carries the
    failure and whose message names the instrument; the cycle then goes on
    from there with the callbacks registered after it, so that the log of
    the cycle is the log at the callback's turn, that one record, and what
    the later callbacks log; the callback contributes the measurements made
    from the items it produced before it failed (none when the call itself
    raised), between what the callbacks before it and after it contribute;
    it stays registered; and the next cycle invokes it again, provided that
    cycle gets through the callbacks registered before it. *)
Theorem failed_callback_is_logged_and_kept
    (self : ref) (name : str) (first : list canonical) (c : canonical)
    (later : list canonical) (w : world) (e : exn) :
  Instrument.name (instruments w self) = Some name ->
  Instrument._callbacks (instruments w self) = Some (first ++ c :: later) ->
  result (cycle self first w) = Return tt ->
  let w1 := after (cycle self first w) in
  let r0 := invoke c w1 in
  raised (result r0) = Some e ->
  isinstance_StopIteration e = false ->
  isinstance_Exception e = true ->
  let r := _Asynchronous.callback self w in
  let turn := _Asynchronous.attempt self c w1 in
  let w2 := with__logger (_logger w1 ++ [callback_failed e name]) (after r0) in
  (result turn = Return tt /\
   _logger (after turn) = _logger w1 ++ [callback_failed e name] /\
   after turn = w2) /\
  (result r = result (cycle self later w2) /\
   after r = after (cycle self later w2) /\
   (later = [] -> _logger (after r) = _logger w1 ++ [callback_failed e name])) /\
  (exists records, _logger (after r) = _logger w1 ++ callback_failed e name :: records) /\
  levelname (callback_failed e name) = ERROR /\
  exc_info (callback_failed e name) = Some e /\
  getMessage (callback_failed e name) =
    code_points "Callback failed for instrument " ++ name ++ code_points "." /\
  contains (getMessage (callback_failed e name)) name /\
  yielded r =
    yielded (cycle self first w)
    ++ map (measurement_of self) (produced (result r0))
    ++ yielded (cycle self later w2) /\
  (result r0 = Raise e -> produced (result r0) = []) /\
  Instrument._callbacks (instruments (after r) self) = Some (first ++ c :: later) /\
  (result (cycle self first (after r)) = Return tt ->
   exists rest,
     invoked (after (_Asynchronous.callback self (after r))) =
       invoked (after r) ++ first ++ c :: rest).
Proof.
  intros Hname Hcbs Hfirst w1 r0 Hraised Hstop He r turn w2.
  assert (Hname1 : Instrument.name (instruments w1 self) = Some name).
  { subst w1. rewrite (proj1 (cycle_spec self name first w Hname)). exact Hname. }
  assert (Hlogged : logged (result r0) name = [callback_failed e name]).
  { unfold logged. rewrite Hraised, Hstop, He. reflexivity. }
  assert (Hprop : propagated (result r0) = Return tt).
  { unfold propagated. rewrite Hraised, Hstop, He. reflexivity. }
  assert (Hw2 : with__logger (_logger (after r0) ++ logged (result r0) name) (after r0) = w2).
  { subst w2. rewrite Hlogged. subst r0. rewrite (proj1 (proj2 (invoke_frame c w1))).
    reflexivity. }
  assert (Hturn : turn =
            Run (map (measurement_of self) (produced (result r0))) (Return tt) w2).
  { subst turn. rewrite (attempt_run self c w1 name Hname1). cbv zeta. fold r0.
    rewrite Hprop, Hw2. reflexivity. }
  assert (Hname2 : Instrument.name (instruments w2 self) = Some name).
  { subst w2 r0. cbn [instruments with__logger]. rewrite (proj1 (invoke_frame c w1)).
    exact Hname1. }
  pose proof (callback_split self name first c later w Hname Hcbs Hfirst) as Hrun.
  cbv zeta in Hrun. fold w1 in Hrun. fold r0 in Hrun. rewrite Hw2, Hprop in Hrun.
  fold r in Hrun.
  assert (Hinstruments : instruments (after r) = instruments w).
  { subst r. rewrite (callback_is_cycle self _ w Hcbs).
    apply (cycle_spec self name _ w Hname). }
  split; [| split; [| split; [| split; [reflexivity | split; [reflexivity | split;
    [| split; [| split; [| split; [| split]]]]]]]]].
  - rewrite Hturn. cbn [result after]. repeat split.
  - rewrite Hrun. cbn [result after]. split; [reflexivity |]. split; [reflexivity |].
    intros ->. rewrite cycle_nil. reflexivity.
  - rewrite Hrun. cbn [after].
    destruct (cycle_logger_extends self name later w2 Hname2) as (records & Hrecords).
    exists records. rewrite Hrecords. subst w2. cbn [_logger with__logger].
    rewrite <- app_assoc. reflexivity.
  - unfold getMessage, callback_failed. cbn [msg args]. apply callback_failed_message.
  - unfold getMessage, callback_failed. cbn [msg args]. rewrite callback_failed_message.
    apply contains_middle.
  - rewrite Hrun. reflexivity.
  - intros ->. reflexivity.
  - rewrite Hinstruments. exact Hcbs.
  - intros Hnext.
    assert (Hname' : Instrument.name (instruments (after r) self) = Some name)
      by (rewrite Hinstruments; exact Hname).
    assert (Hcbs' : Instrument._callbacks (instruments (after r) self) =
                    Some (first ++ c :: later))
      by (rewrite Hinstruments; exact Hcbs).
    rewrite (callback_is_cycle self _ (after r) Hcbs').
    exact (cycle_reaches self name first c later (after r) Hname' Hnext).
Qed.

Lemma failed_callback_is_logged_and_kept_witness :
  Instrument.name (instruments recovering_world 0%nat) = Some (code_points "load") /\
  Instrument._callbacks (instruments recovering_world 0%nat) =
    Some ([] ++ as_is 3 :: [as_is 2]) /\
  result (cycle 0%nat [] recovering_world) = Return tt /\
  raised (result (invoke (as_is 3) (after (cycle 0%nat [] recovering_world)))) =
    Some (Exception "ValueError" (code_points "bad")) /\
  yielded (_Asynchronous.callback 0%nat recovering_world) =
    [Measurement.mk (int 1) 0%nat None; Measurement.mk (int 5) 0%nat None] /\
  _logger (after (_Asynchronous.attempt 0%nat (as_is 3)
                    (after (cycle 0%nat [] recovering_world)))) =
    _logger (after (cycle 0%nat [] recovering_world))
    ++ [callback_failed (Exception "ValueError" (code_points "bad")) (code_points "load")] /\
  _logger (after (_Asynchronous.callback 0%nat recovering_world)) =
    [callback_failed (Exception "ValueError" (code_points "bad")) (code_points "load")] /\
  Instrument._callbacks
    (instruments (after (_Asynchronous.callback 0%nat recovering_world)) 0%nat) =
    Some [as_is 3; as_is 2].
Proof.
  pose proof (failed_callback_is_logged_and_kept 0%nat (code_points "load")
                [] (as_is 3) [as_is 2] recovering_world
                (Exception "ValueError" (code_points "bad"))
                eq_refl eq_refl eq_refl eq_refl eq_refl eq_refl) as H.
  cbv zeta in H.
  destruct H as ((_ & Hturn & _) & (_ & Hafter & _) & _ & _ & _ & _ & _ & Hy & _ & Hkept & _).
  split; [reflexivity |]. split; [reflexivity |]. split; [reflexivity |].
  split; [reflexivity |]. split; [rewrite Hy; vm_compute; reflexivity |].
  split; [exact Hturn |].
  split; [rewrite Hafter; vm_compute; reflexivity |].
  exact Hkept.
Defined.

(** ** Successive cycles *)

Lemma cycles_succ (self : ref) (n : nat) (w : world) :
  cycles self (S n) w =
  (yielded (_Asynchronous.callback self w)
     :: fst (cycles self n (after (_Asynchronous.callback self w))),
   snd (cycles self n (after (_Asynchronous.callback self w)))).
Proof.
  cbn [cycles]. destruct (cycles self n (after (_Asynchronous.callback self w))).
  reflexivity.
Qed.

(** A cycle of an instrument with a single registered callback. *)
Lemma single_cycle (self : ref) (name : str) (c : canonical) (w : world) :
  Instrument.name (instruments w self) = Some name ->
  Instrument._callbacks (instruments w self) = Some [c] ->
  let r0 := invoke c w in
  _Asynchronous.callback self w =
  Run (map (measurement_of self) (produced (result r0)))
      (propagated (result r0))
      (with__logger (_logger (after r0) ++ logged (result r0) name) (after r0)).
Proof.
  intros Hname Hcbs r0.
  rewrite (callback_is_cycle self [c] w Hcbs), cycle_cons. cbv zeta.
  rewrite (attempt_run self c w name Hname). cbv zeta. fold r0.
  cbn [result after yielded].
  destruct (propagated (result r0)) as [[] | e]; [| reflexivity].
  rewrite cycle_nil. cbn [result after yielded]. rewrite app_nil_r. reflexivity.
Qed.

(** The cycle in which the generator yields a batch. *)
Lemma cycle_advances (self : ref) (name : str) (g : ref) (w : world)
    (A : list APIMeasurement.t) :
  Instrument.name (instruments w self) = Some name ->
  Instrument._callbacks (instruments w self) = Some [inner g] ->
  finished (generators w g) = false ->
  body (generators w g) (resumed (generators w g)) = yields (iter A) ->
  let r := _Asynchronous.callback self w in
  yielded r = map (measurement_of self) A /\
  instruments (after r) = instruments w /\
  _logger (after r) = _logger w /\
  generators (after r) g =
    {| body := body (generators w g);
       resumed := S (resumed (generators w g));
       finished := false |}.
Proof.
  intros Hname Hcbs Hfin Hbody. cbv zeta.
  rewrite (single_cycle self name (inner g) w Hname Hcbs). cbv zeta.
  rewrite invoke_inner. cbn [result after yielded].
  assert (Hnext : next_ (generators w g) =
            (Return (iter A),
             {| body := body (generators w g);
                resumed := S (resumed (generators w g));
                finished := false |})).
  { unfold next_. rewrite Hfin, Hbody. reflexivity. }
  rewrite Hnext. cbn [fst snd produced]. unfold logged, raised.
  rewrite items_iter, ending_iter.
  cbn [instruments _logger generators with__logger with_generators with_invoked].
  rewrite app_nil_r, fn_lookup_insert. repeat split.
Qed.

(** The cycle in which the generator returns. *)
Lemma cycle_finishes (self : ref) (name : str) (g : ref) (w : world) :
  Instrument.name (instruments w self) = Some name ->
  Instrument._callbacks (instruments w self) = Some [inner g] ->
  finished (generators w g) = false ->
  body (generators w g) (resumed (generators w g)) = returns ->
  let r := _Asynchronous.callback self w in
  yielded r = [] /\
  instruments (after r) = instruments w /\
  _logger (after r) = _logger w /\
  generators (after r) g =
    {| body := body (generators w g);
       resumed := resumed (generators w g);
       finished := true |}.
Proof.
  intros Hname Hcbs Hfin Hbody. cbv zeta.
  rewrite (single_cycle self name (inner g) w Hname Hcbs). cbv zeta.
  rewrite invoke_inner. cbn [result after yielded].
  assert (Hnext : next_ (generators w g) =
            (Raise StopIteration,
             {| body := body (generators w g);
                resumed := resumed (generators w g);
                finished := true |})).
  { unfold next_. rewrite Hfin, Hbody. reflexivity. }
  rewrite Hnext. cbn [fst snd produced map]. unfold logged, raised.
  cbn [isinstance_StopIteration].
  cbn [instruments _logger generators with__logger with_generators with_invoked].
  rewrite app_nil_r, fn_lookup_insert. repeat split.
Qed.

(** A cycle over a finished generator. *)
Lemma cycle_idle (self : ref) (name : str) (g : ref) (w : world) :
  Instrument.name (instruments w self) = Some name ->
  Instrument._callbacks (instruments w self) = Some [inner g] ->
  finished (generators w g) = true ->
  let r := _Asynchronous.callback self w in
  yielded r = [] /\
  instruments (after r) = instruments w /\
  _logger (after r) = _logger w /\
  generators (after r) g = generators w g.
Proof.
  intros Hname Hcbs Hfin. cbv zeta.
  rewrite (single_cycle self name (inner g) w Hname Hcbs). cbv zeta.
  rewrite invoke_inner. cbn [result after yielded].
  assert (Hnext : next_ (generators w g) = (Raise StopIteration, generators w g)).
  { unfold next_. rewrite Hfin. reflexivity. }
  rewrite Hnext. cbn [fst snd produced map]. unfold logged, raised.
  cbn [isinstance_StopIteration].
  cbn [instruments _logger generators with__logger with_generators with_invoked].
  rewrite app_nil_r, fn_lookup_insert. repeat split.
Qed.

Lemma idle_forever (self : ref) (name : str) (g : ref) (n : nat) :
  forall w,
    Instrument.name (instruments w self) = Some name ->
    Instrument._callbacks (instruments w self) = Some [inner g] ->
    finished (generators w g) = true ->
    fst (cycles self n w) = repeat [] n /\
    instruments (snd (cycles self n w)) = instruments w /\
    _logger (snd (cycles self n w)) = _logger w /\
    generators (snd (cycles self n w)) g = generators w g.
Proof.
  induction n as [| n IH]; intros w Hname Hcbs Hfin; [repeat split |].
  rewrite cycles_succ. cbn [fst snd repeat].
  destruct (cycle_idle self name g w Hname Hcbs Hfin) as (Hy & Hi & Hl & Hg).
  destruct (IH (after (_Asynchronous.callback self w))) as (IHy & IHi & IHl & IHg).
  - rewrite Hi. exact Hname.
  - rewrite Hi. exact Hcbs.
  - rewrite Hg. exact Hfin.
  - rewrite Hy, IHy, IHi, IHl, IHg, Hi, Hl, Hg. repeat split.
Qed.

(** C5. An instrument built on one generator that yields the batch [A],
    then the batch [B], then returns: four successive cycles yield the
    measurements of [A], those of [B], nothing and nothing, and so does
    every cycle after them; the wrapper of the generator stays registered,
    nothing is logged, and once it has returned the generator is finished
    and its body is not resumed again. *)
Theorem step_producer_yields_its_batches_then_nothing
    (cls : class) (name : str) (scope consumer : ref) (unit description : str)
    (w : world) (self g : ref) (A B : list APIMeasurement.t) :
  is_observable cls = true ->
  result (instantiate cls name scope consumer (Some [generator_object g]) unit description w) =
    Return self ->
  finished (generators w g) = false ->
  let k := resumed (generators w g) in
  body (generators w g) k = yields (iter A) ->
  body (generators w g) (S k) = yields (iter B) ->
  body (generators w g) (S (S k)) = returns ->
  let w0 :=
    after (instantiate cls name scope consumer (Some [generator_object g]) unit description w) in
  let first_four :=
    [map (measurement_of self) A; map (measurement_of self) B; []; []] in
  fst (cycles self 4 w0) = first_four /\
  (forall n, fst (cycles self (4 + n) w0) = first_four ++ repeat [] n) /\
  (forall n,
     Instrument._callbacks (instruments (snd (cycles self n w0)) self) = Some [inner g] /\
     _logger (snd (cycles self n w0)) = _logger w) /\
  (forall n,
     generators (snd (cycles self (3 + n) w0)) g =
       {| body := body (generators w g); resumed := S (S k); finished := true |}).
Proof.
  intros Hcls Hres Hfin k HA HB Hret w0 first_four.
  pose proof (instantiate_returns_only_when_valid _ _ _ _ _ _ _ _ _ Hres) as Hcheck.
  destruct (instantiate_accepted cls name scope consumer (Some [generator_object g])
              unit description w Hcheck) as (Hself & _ & Hobject & _ & Hframe).
  cbv zeta in Hself, Hobject, Hframe. fold w0 in Hobject, Hframe.
  rewrite Hself in Hres. injection Hres as <-. rewrite Hcls in Hobject.
  set (self := allocated w) in *.
  assert (Hname0 : Instrument.name (instruments w0 self) = Some (lower name))
    by (rewrite Hobject; reflexivity).
  assert (Hcbs0 : Instrument._callbacks (instruments w0 self) = Some [inner g])
    by (rewrite Hobject; reflexivity).
  assert (Hgen0 : generators w0 = generators w) by (rewrite Hframe; reflexivity).
  assert (Hlog0 : _logger w0 = _logger w) by (rewrite Hframe; reflexivity).
  clearbody w0. clear Hobject Hframe Hself Hcheck.
  (* first cycle *)
  destruct (cycle_advances self (lower name) g w0 A Hname0 Hcbs0) as (Hy1 & Hi1 & Hl1 & Hg1);
    [rewrite Hgen0; exact Hfin | rewrite Hgen0; exact HA |].
  set (w1 := after (_Asynchronous.callback self w0)) in *.
  rewrite Hgen0 in Hg1. fold k in Hg1.
  (* second cycle *)
  destruct (cycle_advances self (lower name) g w1 B) as (Hy2 & Hi2 & Hl2 & Hg2);
    [rewrite Hi1; exact Hname0 | rewrite Hi1; exact Hcbs0
    | rewrite Hg1; reflexivity | rewrite Hg1; exact HB |].
  set (w2 := after (_Asynchronous.callback self w1)) in *.
  rewrite Hg1 in Hg2. cbn [body resumed] in Hg2.
  (* third cycle *)
  destruct (cycle_finishes self (lower name) g w2) as (Hy3 & Hi3 & Hl3 & Hg3);
    [rewrite Hi2, Hi1; exact Hname0 | rewrite Hi2, Hi1; exact Hcbs0
    | rewrite Hg2; reflexivity | rewrite Hg2; exact Hret |].
  set (w3 := after (_Asynchronous.callback self w2)) in *.
  rewrite Hg2 in Hg3. cbn [body resumed] in Hg3.
  (* every cycle after *)
  assert (Hidle : forall n,
            fst (cycles self n w3) = repeat [] n /\
            instruments (snd (cycles self n w3)) = instruments w0 /\
            _logger (snd (cycles self n w3)) = _logger w /\
            generators (snd (cycles self n w3)) g =
              {| body := body (generators w g); resumed := S (S k); finished := true |}).
  { intros n.
    destruct (idle_forever self (lower name) g n w3) as (IHy & IHi & IHl & IHg);
      [rewrite Hi3, Hi2, Hi1; exact Hname0 | rewrite Hi3, Hi2, Hi1; exact Hcbs0
      | rewrite Hg3; reflexivity |].
    rewrite IHy, IHi, IHl, IHg, Hi3, Hi2, Hi1, Hl3, Hl2, Hl1, Hg3, Hlog0. repeat split. }
  assert (Hthree : forall n,
            cycles self (3 + n) w0 =
            (map (measurement_of self) A :: map (measurement_of self) B :: []
               :: fst (cycles self n w3),
             snd (cycles self n w3))).
  { intros n. cbn [Nat.add]. rewrite !cycles_succ. cbn [fst snd].
    fold w1. fold w2. fold w3. rewrite Hy1, Hy2, Hy3. reflexivity. }
  split; [| split; [| split]].
  - change 4%nat with (3 + 1)%nat. rewrite (Hthree 1%nat). cbn [fst]. rewrite (proj1 (Hidle 1%nat)). reflexivity.
  - intros n. change (4 + n)%nat with (3 + S n)%nat.
    rewrite (Hthree (S n)). cbn [fst]. rewrite (proj1 (Hidle (S n))). reflexivity.
  - intros [| [| [| n]]].
    + cbn [cycles snd]. rewrite Hcbs0, Hlog0. split; reflexivity.
    + rewrite cycles_succ. cbn [cycles snd]. fold w1.
      rewrite Hi1, Hl1, Hcbs0, Hlog0. split; reflexivity.
    + rewrite !cycles_succ. cbn [cycles snd]. fold w1. fold w2.
      rewrite Hi2, Hl2, Hi1, Hl1, Hcbs0, Hlog0. split; reflexivity.
    + change (S (S (S n))) with (3 + n)%nat. rewrite (Hthree n). cbn [snd].
      destruct (Hidle n) as (_ & Hi & Hl & _). rewrite Hi, Hl, Hcbs0. split; reflexivity.
  - intros n. rewrite (Hthree n). cbn [snd]. apply (Hidle n).
Qed.

Lemma step_producer_yields_its_batches_then_nothing_witness :
  is_observable ObservableCounter = true /\
  result (instantiate ObservableCounter (code_points "steps") 3%nat 4%nat
            (Some [generator_object 7]) [] [] producers_world) = Return 0%nat /\
  finished (generators producers_world 7%nat) = false /\
  fst (cycles 0%nat 4 stepping_world) =
    [[Measurement.mk (int 1) 0%nat None];
     [Measurement.mk (int 2) 0%nat None; Measurement.mk (int 3) 0%nat None];
     []; []].
Proof.
  split; [reflexivity |]. split; [reflexivity |]. split; [reflexivity |].
  exact (proj1 (step_producer_yields_its_batches_then_nothing
                  ObservableCounter (code_points "steps") 3%nat 4%nat [] []
                  producers_world 0%nat 7%nat [reading 1] [reading 2; reading 3]
                  eq_refl eq_refl eq_refl eq_refl eq_refl eq_refl)).
Defined.

(** * Further properties of the module *)

(** ** Construction *)

(** What construction of an observable instrument leaves, when it returns. *)
Lemma instantiate_observable
    (cls : class) (name : str) (scope consumer : ref)
    (callbacks : option (list CallbackT)) (unit description : str) (w : world) (self : ref) :
  is_observable cls = true ->
  result (instantiate cls name scope consumer callbacks unit description w) = Return self ->
  let w' := after (instantiate cls name scope consumer callbacks unit description w) in
  instruments w' self =
    Instrument.mk cls (Some (lower name)) (Some unit) (Some description)
      (Some scope) (Some consumer) (Some (map canonical_of (default [] callbacks))) /\
  w' = with_allocated (S (allocated w)) (with_instruments (instruments w') w).
Proof.
  intros Hcls Hres w'.
  pose proof (instantiate_returns_only_when_valid _ _ _ _ _ _ _ _ _ Hres) as Hcheck.
  destruct (instantiate_accepted cls name scope consumer callbacks unit description w
              Hcheck) as (Hself & _ & Hobject & _ & Hframe).
  cbv zeta in Hself, Hobject, Hframe. fold w' in Hobject, Hframe.
  rewrite Hself in Hres. injection Hres as <-. rewrite Hcls in Hobject.
  split; [exact Hobject | exact Hframe].
Qed.

(** X1. The name is checked before the unit: when the name is invalid,
    whatever the unit, construction of any of the six classes raises the
    error whose message ends with the name. *)
Theorem name_is_checked_before_unit
    (cls : class) (name : str) (scope consumer : ref)
    (callbacks : option (list CallbackT)) (unit description : str) (w : world) :
  invalid_name name ->
  result (instantiate cls name scope consumer callbacks unit description w) =
  Raise (Exception "Exception"
           (code_points "Expected ASCII string of maximum length 63 characters but got "
            ++ name)).
Proof.
  intros Hname. pose proof (check_invalid_name name unit Hname) as Hfst.
  destruct (_check_name_and_unit name unit) as [a b] eqn:Hcheck.
  cbn [fst] in Hfst. subst a.
  rewrite (instantiate_rejected _ _ _ _ _ _ _ _ false b Hcheck eq_refl).
  cbn [result]. rewrite format_error_message. reflexivity.
Qed.

Lemma name_is_checked_before_unit_witness :
  invalid_name (code_points "9lives") /\
  invalid_unit [233] /\
  result (instantiate Counter (code_points "9lives") 3%nat 4%nat None [233] [] empty_world) =
  Raise (Exception "Exception"
           (code_points "Expected ASCII string of maximum length 63 characters but got "
            ++ code_points "9lives")).
Proof.
  assert (H : invalid_name (code_points "9lives")).
  { right. right. right. reflexivity. }
  split; [exact H |]. split; [right; constructor; lia |].
  exact (name_is_checked_before_unit Counter (code_points "9lives") 3%nat 4%nat None
           [233] [] empty_world H).
Defined.

(** X2. Registration keeps the callbacks in the order they were given, a
    generator object as its wrapper and a plain callable as itself, with no
    callbacks standing for the empty list; and construction runs none of
    them: no generator is advanced, no callable is called, nothing is
    logged and nothing reaches a consumer. *)
Theorem registration_keeps_order_and_runs_nothing
    (cls : class) (name : str) (scope consumer : ref)
    (callbacks : option (list CallbackT)) (unit description : str) (w : world) (self : ref) :
  is_observable cls = true ->
  result (instantiate cls name scope consumer callbacks unit description w) = Return self ->
  let w' := after (instantiate cls name scope consumer callbacks unit description w) in
  Instrument._callbacks (instruments w' self) =
    Some (map canonical_of (default [] callbacks)) /\
  generators w' = generators w /\
  callables w' = callables w /\
  invoked w' = invoked w /\
  _logger w' = _logger w /\
  consumed w' = consumed w.
Proof.
  intros Hcls Hres w'.
  destruct (instantiate_observable cls name scope consumer callbacks unit description w self
              Hcls Hres) as (Hobject & Hframe).
  fold w' in Hobject, Hframe.
  split; [rewrite Hobject; reflexivity |].
  rewrite Hframe. repeat split.
Qed.

Lemma registration_keeps_order_and_runs_nothing_witness :
  is_observable ObservableGauge = true /\
  result (instantiate ObservableGauge (code_points "load") 3%nat 4%nat
            (Some [callable_object 3; callable_object 2]) [] [] callables_world) =
    Return 0%nat /\
  Instrument._callbacks (instruments recovering_world 0%nat) = Some [as_is 3; as_is 2] /\
  invoked recovering_world = [].
Proof.
  pose proof (registration_keeps_order_and_runs_nothing ObservableGauge (code_points "load")
                3%nat 4%nat (Some [callable_object 3; callable_object 2]) [] []
                callables_world 0%nat eq_refl eq_refl) as (Hcbs & _ & _ & Hinvoked & _).
  split; [reflexivity |]. split; [reflexivity |].
  split; [exact Hcbs | exact Hinvoked].
Defined.

(** X3. An observable instrument built with no callbacks, or with an empty
    list of them, has an empty registration list, and every cycle on it
    yields nothing, ends normally and leaves the store as it was. *)
Theorem instrument_without_callbacks_yields_nothing
    (cls : class) (name : str) (scope consumer : ref)
    (callbacks : option (list CallbackT)) (unit description : str) (w : world) (self : ref) :
  is_observable cls = true ->
  callbacks = None \/ callbacks = Some [] ->
  result (instantiate cls name scope consumer callbacks unit description w) = Return self ->
  let w0 := after (instantiate cls name scope consumer callbacks unit description w) in
  Instrument._callbacks (instruments w0 self) = Some [] /\
  _Asynchronous.callback self w0 = Run [] (Return tt) w0 /\
  (forall n, cycles self n w0 = (repeat [] n, w0)).
Proof.
  intros Hcls Hnone Hres w0.
  destruct (instantiate_observable cls name scope consumer callbacks unit description w self
              Hcls Hres) as (Hobject & _).
  fold w0 in Hobject.
  assert (Hcbs : Instrument._callbacks (instruments w0 self) = Some []).
  { rewrite Hobject. destruct Hnone as [-> | ->]; reflexivity. }
  clearbody w0.
  assert (Hcycle : _Asynchronous.callback self w0 = Run [] (Return tt) w0).
  { rewrite (callback_is_cycle self [] w0 Hcbs). apply cycle_nil. }
  split; [exact Hcbs |]. split; [exact Hcycle |].
  induction n as [| n IH]; [reflexivity |].
  rewrite cycles_succ, Hcycle. cbn [yielded after]. rewrite IH. reflexivity.
Qed.

Lemma instrument_without_callbacks_yields_nothing_witness :
  is_observable ObservableGauge = true /\
  result (instantiate ObservableGauge (code_points "load") 3%nat 4%nat None [] []
            empty_world) = Return 0%nat /\
  cycles 0%nat 3 idle_world = ([[]; []; []], idle_world).
Proof.
  pose proof (instrument_without_callbacks_yields_nothing ObservableGauge
                (code_points "load") 3%nat 4%nat None [] [] empty_world 0%nat
                eq_refl (or_introl eq_refl) eq_refl) as (_ & _ & H).
  split; [reflexivity |]. split; [reflexivity |]. exact (H 3%nat).
Defined.

(** ** Synchronous recording *)

(** X4. A recording call yields nothing and touches no instrument, no
    generator and no callable, and invokes no callback, whatever the amount
    and whatever the state of the object; [UpDownCounter.add] moreover logs
    nothing, whatever the amount. *)
Theorem recording_touches_only_the_log_and_the_consumer
    (w : world) (self : ref) (amount : number) (attributes : Attributes) :
  let untouched (r : run NoneType) :=
    yielded r = [] /\
    instruments (after r) = instruments w /\
    generators (after r) = generators w /\
    callables (after r) = callables w /\
    invoked (after r) = invoked w in
  untouched (Counter.add self amount attributes w) /\
  untouched (Histogram.record self amount attributes w) /\
  untouched (UpDownCounter.add self amount attributes w) /\
  _logger (after (UpDownCounter.add self amount attributes w)) = _logger w.
Proof.
  cbv zeta. unfold Counter.add, Histogram.record, UpDownCounter.add, mbind, M_bind, getattr.
  destruct (lt_zero amount);
    destruct (Instrument.name (instruments w self));
    destruct (Instrument._measurement_consumer (instruments w self));
    repeat split.
Qed.

Lemma not_negative_lt_zero (amount : number) : ~ negative amount -> lt_zero amount = false.
Proof.
  intros Hnot. apply not_true_is_false. intros Hlt. apply Hnot, negative_lt_zero, Hlt.
Qed.

(** X5. [Counter.add] and [Histogram.record] turn away negative amounts
    only: every amount that is not below zero, a NaN and the negative zero
    among them, is handed to the consumer as one measurement, and nothing is
    logged. *)
Theorem amount_not_below_zero_is_recorded
    (w : world) (self consumer : ref) (amount : number) (attributes : Attributes) :
  Instrument._measurement_consumer (instruments w self) = Some consumer ->
  ~ negative amount ->
  let recorded (r : run NoneType) :=
    result r = Return tt /\
    consumed (after r) = consumed w ++ [(consumer, Measurement.mk amount self attributes)] /\
    _logger (after r) = _logger w in
  recorded (Counter.add self amount attributes w) /\
  recorded (Histogram.record self amount attributes w).
Proof.
  intros Hconsumer Hnot. apply not_negative_lt_zero in Hnot. cbv zeta.
  unfold Counter.add, Histogram.record. rewrite Hnot.
  unfold mbind, M_bind, getattr. rewrite Hconsumer. repeat split.
Qed.

Lemma amount_not_below_zero_is_recorded_witness :
  Instrument._measurement_consumer (instruments counter_world 0%nat) = Some 4%nat /\
  ~ negative (float S754_nan) /\
  consumed (after (Counter.add 0%nat (float S754_nan) None counter_world)) =
    [(4%nat, Measurement.mk (float S754_nan) 0%nat None)] /\
  consumed (after (Histogram.record 0%nat (float (S754_zero true)) None counter_world)) =
    [(4%nat, Measurement.mk (float (S754_zero true)) 0%nat None)].
Proof.
  assert (Hnan : ~ negative (float S754_nan)) by (simpl; tauto).
  assert (Hzero : ~ negative (float (S754_zero true))) by (simpl; tauto).
  pose proof (amount_not_below_zero_is_recorded counter_world 0%nat 4%nat
                (float S754_nan) None eq_refl Hnan) as [[_ [HC _]] _].
  pose proof (amount_not_below_zero_is_recorded counter_world 0%nat 4%nat
                (float (S754_zero true)) None eq_refl Hzero) as [_ [_ [HH _]]].
  split; [reflexivity |]. split; [exact Hnan |]. split; [exact HC | exact HH].
Defined.

(** ** Collection *)

(** X6. The body of [callback] hands nothing to a consumer and assigns no
    attribute.  The callbacks considered are those of the store: generators
    and callables that act on their own state only, and so neither record
    on an instrument nor touch one.  Over such callbacks, a cycle leaves
    what the consumers have received, and every instrument with its
    registration list, as they were. *)
Theorem collection_never_records
    (self : ref) (name : str) (callbacks : list canonical) (w : world) :
  Instrument.name (instruments w self) = Some name ->
  Instrument._callbacks (instruments w self) = Some callbacks ->
  let r := _Asynchronous.callback self w in
  consumed (after r) = consumed w /\
  instruments (after r) = instruments w.
Proof.
  intros Hname Hcbs. cbv zeta. rewrite (callback_is_cycle self callbacks w Hcbs).
  destruct (cycle_spec self name callbacks w Hname) as (Hi & Hc & _).
  split; [exact Hc | exact Hi].
Qed.

Lemma collection_never_records_witness :
  Instrument.name (instruments recovering_world 0%nat) = Some (code_points "load") /\
  Instrument._callbacks (instruments recovering_world 0%nat) = Some [as_is 3; as_is 2] /\
  consumed (after (_Asynchronous.callback 0%nat recovering_world)) = [] /\
  yielded (_Asynchronous.callback 0%nat recovering_world) <> [].
Proof.
  pose proof (collection_never_records 0%nat (code_points "load") [as_is 3; as_is 2]
                recovering_world eq_refl eq_refl) as (H & _).
  split; [reflexivity |]. split; [reflexivity |]. split; [exact H |].
  vm_compute. discriminate.
Defined.

Lemma cycle_yields_own (self : ref) (name : str) (callbacks : list canonical) :
  forall w,
    Instrument.name (instruments w self) = Some name ->
    Forall (fun m => Measurement.instrument m = self) (yielded (cycle self callbacks w)).
Proof.
  induction callbacks as [| c callbacks IH]; intros w Hname.
  - rewrite cycle_nil. constructor.
  - rewrite cycle_cons. cbv zeta.
    rewrite (attempt_run self c w name Hname). cbv zeta. cbn [result after yielded].
    assert (Hown : Forall (fun m => Measurement.instrument m = self)
                     (map (measurement_of self) (produced (result (invoke c w))))).
    { apply List.Forall_forall. intros m Hm.
      apply in_map_iff in Hm as (x & <- & _). reflexivity. }
    destruct (propagated (result (invoke c w))) as [[] | e]; cbn [yielded]; [| exact Hown].
    apply Forall_app. split; [exact Hown |]. apply IH.
    cbn [instruments with__logger]. rewrite (proj1 (invoke_frame c w)). exact Hname.
Qed.

(** X7. Every measurement a cycle yields carries the instrument the cycle
    was run on. *)
Theorem every_measurement_carries_its_instrument
    (self : ref) (name : str) (callbacks : list canonical) (w : world) :
  Instrument.name (instruments w self) = Some name ->
  Instrument._callbacks (instruments w self) = Some callbacks ->
  Forall (fun m => Measurement.instrument m = self)
         (yielded (_Asynchronous.callback self w)).
Proof.
  intros Hname Hcbs. rewrite (callback_is_cycle self callbacks w Hcbs).
  apply (cycle_yields_own self name callbacks w Hname).
Qed.

Lemma every_measurement_carries_its_instrument_witness :
  Instrument.name (instruments recovering_world 0%nat) = Some (code_points "load") /\
  Instrument._callbacks (instruments recovering_world 0%nat) = Some [as_is 3; as_is 2] /\
  length (yielded (_Asynchronous.callback 0%nat recovering_world)) = 2%nat /\
  Forall (fun m => Measurement.instrument m = 0%nat)
         (yielded (_Asynchronous.callback 0%nat recovering_world)).
Proof.
  split; [reflexivity |]. split; [reflexivity |]. split; [vm_compute; reflexivity |].
  exact (every_measurement_carries_its_instrument 0%nat (code_points "load")
           [as_is 3; as_is 2] recovering_world eq_refl eq_refl).
Defined.

(** X8. A callback failure that is not an instance of [Exception] ends the
    cycle at once: the cycle raises it, nothing is logged for it, the
    measurements yielded up to it (those made from the items the failing
    callback had produced included) stand, and the callbacks registered
    after it are not invoked. *)
Theorem failure_outside_exception_ends_the_cycle_unlogged
    (self : ref) (name : str) (first : list canonical) (c : canonical)
    (later : list canonical) (w : world) (e : exn) :
  Instrument.name (instruments w self) = Some name ->
  Instrument._callbacks (instruments w self) = Some (first ++ c :: later) ->
  result (cycle self first w) = Return tt ->
  let w1 := after (cycle self first w) in
  let r0 := invoke c w1 in
  raised (result r0) = Some e ->
  isinstance_Exception e = false ->
  let r := _Asynchronous.callback self w in
  result r = Raise e /\
  yielded r =
    yielded (cycle self first w) ++ map (measurement_of self) (produced (result r0)) /\
  _logger (after r) = _logger w1 /\
  invoked (after r) = invoked w ++ first ++ [c].
Proof.
  intros Hname Hcbs Hfirst w1 r0 Hraised He r.
  assert (Hstop : isinstance_StopIteration e = false)
    by (destruct e; try discriminate; reflexivity).
  pose proof (callback_split self name first c later w Hname Hcbs Hfirst) as Hrun.
  cbv zeta in Hrun. fold w1 in Hrun. fold r0 in Hrun. fold r in Hrun.
  unfold propagated, logged in Hrun. rewrite Hraised, Hstop, He in Hrun.
  rewrite Hrun. cbn [result yielded after _logger invoked with__logger].
  destruct (invoke_frame c w1) as (_ & Hl & _ & _ & Ht). fold r0 in Hl, Ht.
  destruct (cycle_spec self name first w Hname) as (_ & _ & _ & Ht1).
  rewrite Hfirst in Ht1. fold w1 in Ht1.
  split; [reflexivity |]. split; [reflexivity |]. split.
  - rewrite app_nil_r. exact Hl.
  - rewrite Ht, Ht1, <- app_assoc. reflexivity.
Qed.

Lemma failure_outside_exception_ends_the_cycle_unlogged_witness :
  Instrument.name (instruments failing_world 0%nat) = Some (code_points "load") /\
  Instrument._callbacks (instruments failing_world 0%nat) = Some ([as_is 3] ++ as_is 1 :: []) /\
  result (cycle 0%nat [as_is 3] failing_world) = Return tt /\
  isinstance_Exception (BaseException "KeyboardInterrupt") = false /\
  result (_Asynchronous.callback 0%nat failing_world) =
    Raise (BaseException "KeyboardInterrupt") /\
  invoked (after (_Asynchronous.callback 0%nat failing_world)) = [as_is 3; as_is 1].
Proof.
  pose proof (failure_outside_exception_ends_the_cycle_unlogged 0%nat (code_points "load")
                [as_is 3] (as_is 1) [] failing_world (BaseException "KeyboardInterrupt")
                eq_refl eq_refl eq_refl eq_refl eq_refl) as (Hres & _ & _ & Htrace).
  split; [reflexivity |]. split; [reflexivity |]. split; [reflexivity |].
  split; [reflexivity |]. split; [exact Hres | exact Htrace].
Defined.

(** X9. A registered generator whose body raises an instance of
    [Exception]: the cycle in which it does logs that failure once and
    yields nothing; the generator is finished from then on, so every later
    cycle yields nothing and logs nothing more, while the wrapper stays
    registered. *)
Theorem raising_generator_is_logged_once_then_idle
    (self : ref) (name : str) (g : ref) (w : world) (e : exn) :
  Instrument.name (instruments w self) = Some name ->
  Instrument._callbacks (instruments w self) = Some [inner g] ->
  finished (generators w g) = false ->
  body (generators w g) (resumed (generators w g)) = raises e ->
  isinstance_StopIteration e = false ->
  isinstance_Exception e = true ->
  let r := _Asynchronous.callback self w in
  yielded r = [] /\
  result r = Return tt /\
  _logger (after r) = _logger w ++ [callback_failed e name] /\
  finished (generators (after r) g) = true /\
  (forall n,
     fst (cycles self n (after r)) = repeat [] n /\
     _logger (snd (cycles self n (after r))) = _logger (after r) /\
     Instrument._callbacks (instruments (snd (cycles self n (after r))) self) =
       Some [inner g]).
Proof.
  intros Hname Hcbs Hfin Hbody Hstop He r.
  assert (Hnext : next_ (generators w g) =
            (Raise e,
             {| body := body (generators w g);
                resumed := resumed (generators w g);
                finished := true |})).
  { unfold next_. rewrite Hfin, Hbody, Hstop. reflexivity. }
  assert (Hresult : result (invoke (inner g) w) = Raise e).
  { rewrite invoke_inner. cbn [result]. rewrite Hnext. reflexivity. }
  assert (Hrun : r =
            Run [] (Return tt)
              (with__logger (_logger (after (invoke (inner g) w)) ++ [callback_failed e name])
                 (after (invoke (inner g) w)))).
  { subst r. rewrite (single_cycle self name (inner g) w Hname Hcbs). cbv zeta.
    rewrite Hresult. unfold propagated, logged, raised. rewrite Hstop, He. reflexivity. }
  assert (Hgen : generators (after r) g =
            {| body := body (generators w g);
               resumed := resumed (generators w g);
               finished := true |}).
  { rewrite Hrun. cbn [after generators with__logger]. rewrite invoke_inner.
    cbn [after generators with_generators with_invoked].
    rewrite fn_lookup_insert, Hnext. reflexivity. }
  assert (Hins : instruments (after r) = instruments w).
  { rewrite Hrun. cbn [after instruments with__logger]. apply (invoke_frame (inner g) w). }
  split; [rewrite Hrun; reflexivity |]. split; [rewrite Hrun; reflexivity |].
  split; [| split].
  - rewrite Hrun. cbn [after _logger with__logger].
    rewrite (proj1 (proj2 (invoke_frame (inner g) w))). reflexivity.
  - rewrite Hgen. reflexivity.
  - intros n.
    destruct (idle_forever self name g n (after r)) as (Hy & Hi & Hl & _);
      [rewrite Hins; exact Hname | rewrite Hins; exact Hcbs | rewrite Hgen; reflexivity |].
    split; [exact Hy |]. split; [exact Hl |]. rewrite Hi, Hins. exact Hcbs.
Qed.

Lemma raising_generator_is_logged_once_then_idle_witness :
  Instrument.name (instruments faulting_world 0%nat) = Some (code_points "load") /\
  Instrument._callbacks (instruments faulting_world 0%nat) = Some [inner 9] /\
  finished (generators faulting_world 9%nat) = false /\
  _logger (after (_Asynchronous.callback 0%nat faulting_world)) =
    [callback_failed (Exception "ValueError" (code_points "bad")) (code_points "load")] /\
  fst (cycles 0%nat 2 (after (_Asynchronous.callback 0%nat faulting_world))) = [[]; []].
Proof.
  pose proof (raising_generator_is_logged_once_then_idle 0%nat (code_points "load") 9%nat
                faulting_world (Exception "ValueError" (code_points "bad"))
                eq_refl eq_refl eq_refl eq_refl eq_refl eq_refl)
    as (_ & _ & Hlog & _ & Hlater).
  split; [reflexivity |]. split; [reflexivity |]. split; [reflexivity |].
  split; [exact Hlog |]. exact (proj1 (Hlater 2%nat)).
Defined.

(** A call changes how often a callable has been called, never what it
    does. *)
Lemma invoke_behaviour (c : canonical) (w : world) (f : ref) :
  behaviour (callables (after (invoke c w)) f) = behaviour (callables w f).
Proof.
  destruct c as [g | f'].
  - rewrite invoke_inner. reflexivity.
  - rewrite invoke_as_is. cbn [after callables with_callables with_invoked].
    destruct (decide (f' = f)) as [-> | Hne].
    + rewrite fn_lookup_insert. reflexivity.
    + rewrite fn_lookup_insert_ne by exact Hne. reflexivity.
Qed.

Lemma cycle_behaviour (self : ref) (name : str) (callbacks : list canonical) :
  forall (w : world) (f : ref),
    Instrument.name (instruments w self) = Some name ->
    behaviour (callables (after (cycle self callbacks w)) f) = behaviour (callables w f).
Proof.
  induction callbacks as [| c callbacks IH]; intros w f Hname; [reflexivity |].
  rewrite cycle_cons. cbv zeta.
  rewrite (attempt_run self c w name Hname). cbv zeta. cbn [result after yielded].
  destruct (propagated (result (invoke c w))) as [[] | e]; cbn [after].
  - rewrite IH.
    + cbn [callables with__logger]. apply invoke_behaviour.
    + cbn [instruments with__logger]. rewrite (proj1 (invoke_frame c w)). exact Hname.
  - cbn [callables with__logger]. apply invoke_behaviour.
Qed.

(** A cycle over plain callables that each return a collection. *)
Lemma cycle_pure (self : ref) (name : str) (out : ref -> list APIMeasurement.t)
    (fs : list ref) :
  forall w,
    Instrument.name (instruments w self) = Some name ->
    (forall f k, In f fs -> behaviour (callables w f) k = Return (iter (out f))) ->
    yielded (cycle self (map as_is fs) w) =
      concat (map (fun f => map (measurement_of self) (out f)) fs) /\
    result (cycle self (map as_is fs) w) = Return tt /\
    _logger (after (cycle self (map as_is fs) w)) = _logger w.
Proof.
  induction fs as [| f fs IH]; intros w Hname Hpure; [repeat split |].
  cbn [map concat]. rewrite cycle_cons. cbv zeta.
  rewrite (attempt_run self (as_is f) w name Hname). cbv zeta.
  assert (Hcall : result (invoke (as_is f) w) = Return (iter (out f))).
  { apply invoke_as_is_returns, Hpure. left. reflexivity. }
  rewrite Hcall. unfold propagated, logged, raised. rewrite ending_iter.
  cbn [produced result after yielded]. rewrite items_iter.
  match goal with |- context [cycle self (map as_is fs) ?w2] =>
    destruct (IH w2) as (IHy & IHr & IHl) end.
  - cbn [instruments with__logger]. rewrite (proj1 (invoke_frame (as_is f) w)). exact Hname.
  - intros f' k Hin. cbn [callables with__logger]. rewrite invoke_behaviour.
    apply Hpure. right. exact Hin.
  - rewrite IHy, IHr, IHl. cbn [_logger with__logger].
    rewrite app_nil_r, (proj1 (proj2 (invoke_frame (as_is f) w))). repeat split.
Qed.

(** X10. An instrument whose callbacks are plain callables that return the
    same collection at every call yields the same output at every cycle:
    the measurements of each callable's collection, in registration order;
    and no cycle logs anything. *)
Theorem pure_callables_yield_the_same_every_cycle
    (self : ref) (name : str) (fs : list ref) (out : ref -> list APIMeasurement.t) (n : nat) :
  forall w,
    Instrument.name (instruments w self) = Some name ->
    Instrument._callbacks (instruments w self) = Some (map as_is fs) ->
    (forall f k, In f fs -> behaviour (callables w f) k = Return (iter (out f))) ->
    fst (cycles self n w) =
      repeat (concat (map (fun f => map (measurement_of self) (out f)) fs)) n /\
    _logger (snd (cycles self n w)) = _logger w.
Proof.
  induction n as [| n IH]; intros w Hname Hcbs Hpure; [split; reflexivity |].
  rewrite cycles_succ. cbn [fst snd repeat].
  rewrite (callback_is_cycle self _ w Hcbs).
  destruct (cycle_pure self name out fs w Hname Hpure) as (Hy & _ & Hl).
  destruct (cycle_spec self name (map as_is fs) w Hname) as (Hi & _).
  destruct (IH (after (cycle self (map as_is fs) w))) as (IHy & IHl).
  - rewrite Hi. exact Hname.
  - rewrite Hi. exact Hcbs.
  - intros f k Hin. rewrite (cycle_behaviour self name _ w f Hname). apply Hpure, Hin.
  - rewrite Hy, IHy, IHl, Hl. split; reflexivity.
Qed.

Lemma pure_callables_yield_the_same_every_cycle_witness :
  Instrument.name (instruments polling_world 0%nat) = Some (code_points "load") /\
  Instrument._callbacks (instruments polling_world 0%nat) = Some (map as_is [2%nat]) /\
  fst (cycles 0%nat 3 polling_world) =
    repeat [Measurement.mk (int 5) 0%nat None] 3.
Proof.
  assert (Hpure : forall f k, In f [2%nat] ->
            behaviour (callables polling_world f) k = Return (iter [reading 5])).
  { intros f k [<- | []]. reflexivity. }
  split; [reflexivity |]. split; [reflexivity |].
  exact (proj1 (pure_callables_yield_the_same_every_cycle 0%nat (code_points "load")
                  [2%nat] (fun _ => [reading 5]) 3 polling_world eq_refl eq_refl Hpure)).
Defined.

(** One pass over the wrapper of a generator that yields a batch. *)
Lemma attempt_advances (self : ref) (name : str) (g : ref) (w : world)
    (A : list APIMeasurement.t) :
  Instrument.name (instruments w self) = Some name ->
  finished (generators w g) = false ->
  body (generators w g) (resumed (generators w g)) = yields (iter A) ->
  let r := _Asynchronous.attempt self (inner g) w in
  yielded r = map (measurement_of self) A /\
  result r = Return tt /\
  instruments (after r) = instruments w /\
  generators (after r) g =
    {| body := body (generators w g);
       resumed := S (resumed (generators w g));
       finished := false |}.
Proof.
  intros Hname Hfin Hbody. cbv zeta.
  rewrite (attempt_run self (inner g) w name Hname). cbv zeta.
  rewrite invoke_inner. cbn [result after yielded].
  assert (Hnext : next_ (generators w g) =
            (Return (iter A),
             {| body := body (generators w g);
                resumed := S (resumed (generators w g));
                finished := false |})).
  { unfold next_. rewrite Hfin, Hbody. reflexivity. }
  rewrite Hnext. cbn [fst snd produced]. unfold propagated, logged, raised.
  rewrite items_iter, ending_iter.
  cbn [instruments generators with__logger with_generators with_invoked].
  rewrite fn_lookup_insert. repeat split.
Qed.

(** X11. The wrappers hold the generator objects themselves: when one
    generator object is registered twice, its two wrappers advance the same
    generator, so one cycle resumes it twice and yields its next two
    batches. *)
Theorem generator_registered_twice_is_advanced_twice
    (self : ref) (name : str) (g : ref) (w : world) (A B : list APIMeasurement.t) :
  Instrument.name (instruments w self) = Some name ->
  Instrument._callbacks (instruments w self) = Some [inner g; inner g] ->
  finished (generators w g) = false ->
  let k := resumed (generators w g) in
  body (generators w g) k = yields (iter A) ->
  body (generators w g) (S k) = yields (iter B) ->
  let r := _Asynchronous.callback self w in
  yielded r = map (measurement_of self) A ++ map (measurement_of self) B /\
  result r = Return tt /\
  resumed (generators (after r) g) = S (S k).
Proof.
  intros Hname Hcbs Hfin k HA HB r. subst r.
  rewrite (callback_is_cycle self _ w Hcbs).
  destruct (attempt_advances self name g w A Hname Hfin HA) as (Hy1 & Hr1 & Hi1 & Hg1).
  set (r1 := _Asynchronous.attempt self (inner g) w) in *.
  destruct (attempt_advances self name g (after r1) B) as (Hy2 & Hr2 & Hi2 & Hg2);
    [rewrite Hi1; exact Hname | rewrite Hg1; reflexivity | rewrite Hg1; exact HB |].
  set (r2 := _Asynchronous.attempt self (inner g) (after r1)) in *.
  rewrite cycle_cons. cbv zeta. fold r1. rewrite Hr1.
  rewrite cycle_cons. cbv zeta. fold r2. rewrite Hr2.
  rewrite cycle_nil. cbn [yielded result after].
  rewrite Hy1, Hy2, app_nil_r, Hg2, Hg1. repeat split.
Qed.

Lemma generator_registered_twice_is_advanced_twice_witness :
  Instrument.name (instruments twice_world 0%nat) = Some (code_points "steps") /\
  Instrument._callbacks (instruments twice_world 0%nat) = Some [inner 7; inner 7] /\
  finished (generators twice_world 7%nat) = false /\
  yielded (_Asynchronous.callback 0%nat twice_world) =
    [Measurement.mk (int 1) 0%nat None;
     Measurement.mk (int 2) 0%nat None; Measurement.mk (int 3) 0%nat None] /\
  resumed (generators (after (_Asynchronous.callback 0%nat twice_world)) 7%nat) = 2%nat.
Proof.
  pose proof (generator_registered_twice_is_advanced_twice 0%nat (code_points "steps") 7%nat
                twice_world [reading 1] [reading 2; reading 3]
                eq_refl eq_refl eq_refl eq_refl eq_refl) as (Hy & _ & Hresumed).
  split; [reflexivity |]. split; [reflexivity |]. split; [reflexivity |].
  split; [exact Hy | exact Hresumed].
Defined.
